(** * Weather dashboard pipeline: coordinate check, fetch, normalisation,
      current-row and window selection, compass labels.

    Shallow embedding of [src/mini_weather_app/dashboard.py].

    Conventions of the embedding:
    - Python values that come out of the JSON decoder are terms of [pyval];
      Python floats are IEEE binary64 numbers (Rocq's primitive floats).
    - A Python call that may raise returns a [result]; the first exception
      raised is the one returned, in Python's evaluation order.
    - A [datetime] is its wall-clock reading (microseconds) and, when it is
      aware, the UTC offset of its time zone; Python compares and subtracts
      aware datetimes by their instant on the UTC time line.
    - Reading the clock ([datetime.now]) is an explicit argument [now]. *)

From Stdlib Require Import ZArith Lia Bool String Ascii DecimalString Floats Sorted Permutation.
From stdpp Require Import base tactics option list.

Local Open Scope string_scope.
Local Open Scope Z_scope.

(** ** Python exceptions and the error monad *)

Inductive exn : Type :=
  | KeyError (key : string)
  | TypeError
  | IndexError
  | AttributeError
  | ValueError
  | OverflowError
  | ZeroDivisionError
  | MaxRetryError
  (* fetch_smhi line 71: ValueError("Ogiltiga koordinater: lat=.., lon=..") *)
  | InvalidCoordinates (lat lon : float)
  (* fetch_smhi line 82: RuntimeError("SMHI HTTP {status}: ... {sample}") *)
  | HttpStatusError (status : Z) (sample : string)
  (* fetch_smhi line 88: RuntimeError("SMHI svarade inte med JSON (Content-Type=..) ..") *)
  | NotJsonError (content_type : string) (sample : string)
  (* fetch_smhi line 95: RuntimeError("Kunde inte tolka JSON ..") *)
  | JsonDecodeError (sample : string).

Inductive result (A : Type) : Type :=
  | Ok (a : A)
  | Raise (e : exn).
Arguments Ok {A} a.
Arguments Raise {A} e.

Definition bind {A B} (m : result A) (k : A -> result B) : result B :=
  match m with
  | Ok a => k a
  | Raise e => Raise e
  end.

Notation "'let*' x ':=' m 'in' k" := (bind m (fun x => k))
  (at level 10, x name, m at level 100, k at level 200).

Definition raises {A} (m : result A) : Prop := exists e, m = Raise e.
Definition returns {A} (m : result A) : Prop := exists a, m = Ok a.

(** ** Python floats *)

Module PyFloat.

Local Open Scope float_scope.

(** C truthiness of a double: [if (x)] holds unless [x] is a zero. *)
Definition nonzero (x : float) : bool := negb (x =? 0).

Definition sign_bit (x : float) : bool :=
  match Prim2SF x with
  | S754_zero s | S754_infinity s | S754_finite s _ _ => s
  | S754_nan => false
  end.

(** The float of value [(-1)^s * n * 2^e], for [0 <= n < 2^53] and a
    representable value. *)
Definition of_parts (s : bool) (n e : Z) : float :=
  match n with
  | Zpos m => SF2Prim (S754_finite s m e)
  | _ => if s then neg_zero else zero
  end.

(** [fmod] of the C library: the exact remainder of [x / y], with the
    sign of [x]. *)
Definition fmod (x y : float) : float :=
  match Prim2SF x, Prim2SF y with
  | S754_nan, _ | _, S754_nan => nan
  | S754_infinity _, _ => nan
  | _, S754_zero _ => nan
  | S754_zero _, _ => x
  | S754_finite _ _ _, S754_infinity _ => x
  | S754_finite sx mx ex, S754_finite _ my ey =>
      let e := Z.min ex ey in
      let X := (Zpos mx * 2 ^ (ex - e))%Z in
      let Y := (Zpos my * 2 ^ (ey - e))%Z in
      of_parts sx (X mod Y)%Z e
  end.

(** [floor] of the C library. *)
Definition floor (x : float) : float :=
  match Prim2SF x with
  | S754_finite s m e =>
      if (0 <=? e)%Z then x
      else
        let n := ((if s then Zneg m else Zpos m) / 2 ^ (- e))%Z in
        of_parts (n <? 0)%Z (Z.abs n) 0
  | _ => x
  end.

(** Python's [x // y] on floats (CPython's [float_floor_div]). *)
Definition floordiv (vx wx : float) : result float :=
  if wx =? 0 then Raise ZeroDivisionError
  else
    let md := fmod vx wx in
    let div := (vx - md) / wx in
    let div :=
      if nonzero md
      then if negb (eqb (wx <? 0) (md <? 0)) then div - 1 else div
      else div in
    if nonzero div then
      let fl := floor div in
      Ok (if 0.5 <? div - fl then fl + 1 else fl)
    else Ok (if sign_bit (vx / wx) then neg_zero else zero).

(** Python's [int(x)] on a float: truncation towards zero. *)
Definition to_int (x : float) : result Z :=
  match Prim2SF x with
  | S754_nan => Raise ValueError
  | S754_infinity _ => Raise OverflowError
  | S754_zero _ => Ok 0%Z
  | S754_finite s m e =>
      let a := (if (0 <=? e)%Z then Zpos m * 2 ^ e else Zpos m / 2 ^ (- e))%Z in
      Ok (if s then - a else a)%Z
  end.

(** The float whose value is the integer [n] (exact for [|n| <= 2^53]). *)
Definition of_Z (n : Z) : float := of_parts (n <? 0)%Z (Z.abs n) 0.

End PyFloat.

(** ** Degree-to-cardinal helper *)

Definition dirs : list string :=
  ["N";"NNO";"NO";"ONO";"O";"OSO";"SO";"SSO";"S";"SSV";"SV";"VSV";"V";"VNV";"NV";"NNV"].

Definition dash : string := "—".

Definition _deg_to_cardinal (deg : float) : result string :=
  if PrimFloat.is_nan deg then Ok dash
  else
    let* q := PyFloat.floordiv (deg + 11.25)%float 22.5%float in
    let* n := PyFloat.to_int q in
    let ix := n mod 16 in
    match dirs !! Z.to_nat ix with
    | Some d => Ok d
    | None => Raise IndexError
    end.

(** ** Python values, as the JSON decoder produces them *)

#[warnings="-register-all"]
Inductive pyval : Type :=
  | PNone
  | PBool (b : bool)
  | PInt (n : Z)
  | PFloat (x : float)
  | PStr (s : string)
  | PList (l : list pyval)
  | PDict (kv : list (string * pyval)).

Module Py.

(** Truth value of an object ([bool(v)]). *)
Definition truthy (v : pyval) : bool :=
  match v with
  | PNone => false
  | PBool b => b
  | PInt n => negb (n =? 0)%Z
  | PFloat x => PyFloat.nonzero x
  | PStr s => negb (String.eqb s "")
  | PList l => match l with [] => false | _ => true end
  | PDict kv => match kv with [] => false | _ => true end
  end.

(** [a or b] *)
Definition or_ (a b : pyval) : pyval := if truthy a then a else b.

(** Lookup in a dict: the binding found first. *)
Fixpoint lookup (kv : list (string * pyval)) (key : string) : option pyval :=
  match kv with
  | [] => None
  | (k, v) :: kv' => if String.eqb k key then Some v else lookup kv' key
  end.

(** [v.get(key, default)]: only a dict has the method. *)
Definition get (v : pyval) (key : string) (default : pyval) : result pyval :=
  match v with
  | PDict kv => Ok (match lookup kv key with Some x => x | None => default end)
  | _ => Raise AttributeError
  end.

(** [v[key]] for a string [key]. *)
Definition getitem (v : pyval) (key : string) : result pyval :=
  match v with
  | PDict kv =>
      match lookup kv key with
      | Some x => Ok x
      | None => Raise (KeyError key)
      end
  | _ => Raise TypeError
  end.

(** [v[0]] *)
Definition getitem0 (v : pyval) : result pyval :=
  match v with
  | PList (x :: _) => Ok x
  | PList [] => Raise IndexError
  | PStr (String c _) => Ok (PStr (String c ""))
  | PStr EmptyString => Raise IndexError
  | PDict _ => Raise (KeyError "0")   (* the keys of a decoded object are strings *)
  | _ => Raise TypeError
  end.

(** The items a [for] loop over [v] visits. *)
Definition iter (v : pyval) : result (list pyval) :=
  match v with
  | PList l => Ok l
  | PDict kv => Ok (map (fun p => PStr (fst p)) kv)
  | PStr s => Ok (map (fun c => PStr (String c "")) (list_ascii_of_string s))
  | _ => Raise TypeError
  end.

(** [v == name] for a string [name]. *)
Definition eq_str (v : pyval) (name : string) : bool :=
  match v with
  | PStr s => String.eqb s name
  | _ => false
  end.

End Py.

Definition nan : pyval := PFloat PrimFloat.nan.

(** ** _safe_get_param *)

Fixpoint _safe_get_param_loop (ps : list pyval) (name : string) (default : pyval)
  : result pyval :=
  match ps with
  | [] => Ok default
  | p :: ps' =>
      let* n := Py.get p "name" PNone in
      if Py.eq_str n name then
        let* v := Py.get p "values" PNone in
        let vals := Py.or_ v (PList []) in
        if Py.truthy vals then Py.getitem0 vals else Ok default
      else _safe_get_param_loop ps' name default
  end.

Definition _safe_get_param (param_list : pyval) (name : string) (default : pyval)
  : result pyval :=
  let* ps := Py.iter param_list in
  _safe_get_param_loop ps name default.

(** ** Datetimes *)

(** A [datetime]: the wall-clock reading in microseconds since
    1970-01-01T00:00:00 and, when aware, the UTC offset of its [tzinfo]
    in microseconds. *)
Record datetime : Type := mk_datetime {
  wall : Z;
  tzinfo : option Z
}.

(** The instant of an aware datetime on the UTC time line. *)
Definition instant (dt : datetime) : Z :=
  wall dt - match tzinfo dt with Some off => off | None => 0 end.

(** [dt.replace(tzinfo=timezone.utc)] *)
Definition replace_tzinfo_utc (dt : datetime) : datetime :=
  {| wall := wall dt; tzinfo := Some 0 |}.

(** The wall-clock readings a [datetime] can hold, 0001-01-01T00:00:00 to
    9999-12-31T23:59:59.999999, in microseconds since 1970-01-01T00:00:00. *)
Definition datetime_min : Z := -62135596800000000.
Definition datetime_max : Z := 253402300799999999.

Definition in_datetime_range (w : Z) : bool :=
  (datetime_min <=? w) && (w <=? datetime_max).

(** [dt.astimezone(tz)] for an aware [dt]; [tz] gives the zone's UTC offset
    at an instant. The reading is first taken to UTC and then to the
    zone; a step that leaves the range of [datetime] raises
    OverflowError. *)
Definition astimezone (tz : Z -> Z) (dt : datetime) : result datetime :=
  let i := instant dt in
  if negb (in_datetime_range i) then Raise OverflowError
  else
    let w := i + tz i in
    if negb (in_datetime_range w) then Raise OverflowError
    else Ok {| wall := w; tzinfo := Some (tz i) |}.

(** ** Rows and data frames *)

(** One dict appended to [rows] in [smhi_to_df]. A cell holds the Python
    value taken from the payload; pandas' choice of a column dtype is not
    represented, and [isna] below treats [None] and NaN alike, as pandas
    does. *)
Record Row : Type := mk_Row {
  time : datetime;
  temp_C : pyval;
  wind_ms : pyval;
  gust_ms : pyval;
  precip_mm_h : pyval;
  cloud_okta : pyval;
  msl_hPa : pyval;
  rh_pct : pyval;
  wind_deg : pyval
}.

Definition row_keys : list string :=
  ["time";"temp_C";"wind_ms";"gust_ms";"precip_mm_h";"cloud_okta";"msl_hPa";"rh_pct";"wind_deg"].

(** A frame with the default index 0..n-1: its column labels and its rows
    in index order. *)
Record DataFrame : Type := mk_DataFrame {
  columns : list string;
  records : list Row
}.

Module pd.

(** [pd.DataFrame(rows)] for a list of dicts: the columns are the keys of
    the dicts, so a frame built from no dict has no column. *)
Definition DataFrame_of_rows (rows : list Row) : DataFrame :=
  {| columns := match rows with [] => [] | _ => row_keys end;
     records := rows |}.

(** [label in df] *)
Definition contains (label : string) (df : DataFrame) : bool :=
  existsb (String.eqb label) (columns df).

(** [df["time"]]: a missing column label is a KeyError. *)
Definition col_time (df : DataFrame) : result (list datetime) :=
  if contains "time" df then Ok (map time (records df))
  else Raise (KeyError "time").

(** Insertion of a row in a list sorted by instant, before the first row
    that is not earlier. *)
Fixpoint insert_by_time (r : Row) (l : list Row) : list Row :=
  match l with
  | [] => [r]
  | x :: l' =>
      if instant (time r) <=? instant (time x) then r :: x :: l'
      else x :: insert_by_time r l'
  end.

Definition sort_by_time (l : list Row) : list Row :=
  foldr insert_by_time [] l.

(** [df.sort_values("time")]: ascending; KeyError when there is no such
    column. The order pandas gives to rows of equal time depends on its
    sorting kind; here they keep their order. *)
Definition sort_values_time (df : DataFrame) : result DataFrame :=
  if contains "time" df
  then Ok {| columns := columns df; records := sort_by_time (records df) |}
  else Raise (KeyError "time").

(** [df.reset_index(drop=True)]: the index is 0..n-1 again. *)
Definition reset_index (df : DataFrame) : DataFrame := df.

Definition isna (v : pyval) : bool :=
  match v with
  | PNone => true
  | PFloat x => PrimFloat.is_nan x
  | _ => false
  end.

(** [series.fillna(value)], on one cell. *)
Definition fillna (value : pyval) (v : pyval) : pyval :=
  if isna v then value else v.

(** [df["precip_mm_h"] = df["precip_mm_h"].fillna(value)] *)
Definition fillna_precip (value : pyval) (df : DataFrame) : DataFrame :=
  {| columns := columns df;
     records :=
       map (fun r =>
              mk_Row (time r) (temp_C r) (wind_ms r) (gust_ms r)
                     (fillna value (precip_mm_h r))
                     (cloud_okta r) (msl_hPa r) (rh_pct r) (wind_deg r))
           (records df) |}.

(** [series.idxmin()]: the label of the first occurrence of the minimum;
    ValueError on an empty series. *)
Fixpoint idxmin_from (best_i : nat) (best : Z) (i : nat) (l : list Z) : nat :=
  match l with
  | [] => best_i
  | x :: l' =>
      if x <? best then idxmin_from i x (S i) l'
      else idxmin_from best_i best (S i) l'
  end.

Definition idxmin (l : list Z) : result nat :=
  match l with
  | [] => Raise ValueError
  | x :: l' => Ok (idxmin_from 0%nat x 1%nat l')
  end.

(** [df.loc[idx]] *)
Definition loc (df : DataFrame) (idx : nat) : result Row :=
  match records df !! idx with
  | Some r => Ok r
  | None => Raise (KeyError "loc")
  end.

End pd.

(** ** The normaliser *)

Section Normalizer.

(** [dateutil.parser.isoparse] on a string; [None] stands for its
    ValueError. *)
Variable isoparse : string -> option datetime.

(** [STHLM_TZ], the zone Europe/Stockholm of [pytz]: the UTC offset in
    force at an instant. *)
Variable STHLM_TZ : Z -> Z.

(** An argument that is not a string never parses: the parser first
    takes its length (TypeError when it has none) and rejects a length
    under four (ValueError), and fails with TypeError on the first four
    items otherwise. *)
Definition _utc_to_local (ts_iso : pyval) : result datetime :=
  let* dt :=
    match ts_iso with
    | PStr s =>
        match isoparse s with
        | Some d => Ok d
        | None => Raise ValueError
        end
    | PList l => if (length l <? 4)%nat then Raise ValueError else Raise TypeError
    | PDict kv => if (length kv <? 4)%nat then Raise ValueError else Raise TypeError
    | _ => Raise TypeError
    end in
  let dt := match tzinfo dt with
            | None => replace_tzinfo_utc dt
            | Some _ => dt
            end in
  astimezone STHLM_TZ dt.

(** The body of the [for item in ts] loop: the dict appended to [rows]. *)
Definition row_of_item (item : pyval) : result Row :=
  let* vt := Py.getitem item "validTime" in
  let* valid_time := _utc_to_local vt in
  let* params := Py.get item "parameters" (PList []) in
  let* t := _safe_get_param params "t" nan in
  let* ws := _safe_get_param params "ws" nan in
  let* gust := _safe_get_param params "gust" nan in
  let* pmean := _safe_get_param params "pmean" (PFloat 0) in
  let* tcc_mean := _safe_get_param params "tcc_mean" nan in
  let* msl := _safe_get_param params "msl" nan in
  let* r := _safe_get_param params "r" nan in
  let* wd := _safe_get_param params "wd" nan in
  Ok (mk_Row valid_time t ws gust pmean tcc_mean msl r wd).

Fixpoint rows_of_items (items : list pyval) : result (list Row) :=
  match items with
  | [] => Ok []
  | item :: items' =>
      let* row := row_of_item item in
      let* rows := rows_of_items items' in
      Ok (row :: rows)
  end.

Definition smhi_to_df (payload : pyval) : result DataFrame :=
  let* ts0 := Py.get payload "timeSeries" (PList []) in
  let ts := Py.or_ ts0 (PList []) in
  let* items := Py.iter ts in
  let* rows := rows_of_items items in
  let* df := pd.sort_values_time (pd.DataFrame_of_rows rows) in
  let df := pd.reset_index df in
  Ok (if pd.contains "precip_mm_h" df
      then pd.fillna_precip (PFloat 0) df
      else df).

End Normalizer.

(** ** Current row and forecast window *)

(** [pick_current_row(df)], with the clock reading [now] made explicit. *)
Definition pick_current_row (now : datetime) (df : DataFrame) : result Row :=
  let* times := pd.col_time df in
  let deltas := map (fun t => Z.abs (instant t - instant now)) times in
  let* idx := pd.idxmin deltas in
  pd.loc df idx.

(** [pd.Timedelta(hours=h)] in microseconds. *)
Definition Timedelta_hours (h : Z) : Z := h * 3600000000.

(** Lines 170-171: [df[(df["time"] >= now) & (df["time"] <= now + Timedelta(hours))]]. *)
Definition df_window (now : datetime) (hours_ahead : Z) (df : DataFrame)
  : result DataFrame :=
  let* times := pd.col_time df in
  let upper := instant now + Timedelta_hours hours_ahead in
  Ok {| columns := columns df;
        records :=
          List.filter (fun r => (instant now <=? instant (time r))
                                && (instant (time r) <=? upper))
                      (records df) |}.

(** ** The fetcher *)

(** [f"{x:.6f}"]: the decimal expansion of [x] correctly rounded (ties to
    even) to six places. *)
Definition format_6f (x : float) : string :=
  let digits (n : Z) := NilZero.string_of_uint (N.to_uint (Z.to_N n)) in
  let pad6 (s : string) :=
    (String.substring 0 (6 - String.length s) "000000" ++ s)%string in
  let fixed (s : bool) (num den : Z) :=
    (* num / den >= 0, scaled by 10^6 and rounded half to even *)
    let q := (num * 1000000) / den in
    let r := (num * 1000000) mod den in
    let n := if (2 * r <? den) then q
             else if (den <? 2 * r) then q + 1
             else if Z.even q then q else q + 1 in
    ((if s then "-" else "") ++ digits (n / 1000000) ++ "."
       ++ pad6 (digits (n mod 1000000)))%string in
  match Prim2SF x with
  | S754_nan => "nan"
  | S754_infinity s => if s then "-inf" else "inf"
  | S754_zero s => fixed s 0 1
  | S754_finite s m e =>
      if 0 <=? e then fixed s (Zpos m * 2 ^ e) 1
      else fixed s (Zpos m) (2 ^ (- e))
  end.

(** [SMHI_ENDPOINT.format(lat=.., lon=..)] *)
Definition SMHI_ENDPOINT_format (lat lon : string) : string :=
  ("https://opendata-download-metfcst.smhi.se/api/category/pmp3g/version/2/"
   ++ "geotype/point/lon/" ++ lon ++ "/lat/" ++ lat ++ "/data.json")%string.

(** The [Retry] policy of urllib3, with the fields the source sets. *)
Record Retry : Type := mk_Retry {
  total : nat;
  backoff_factor : float;
  status_forcelist : list Z;
  allowed_methods : list string;
  raise_on_status : bool
}.

Record Session : Type := mk_Session {
  max_retries : Retry;
  user_agent : string
}.

Definition _requests_session : Session :=
  {| max_retries :=
       {| total := 3;
          backoff_factor := 0.5;
          status_forcelist := [429; 500; 502; 503; 504];
          allowed_methods := ["GET"];
          raise_on_status := false |};
     user_agent := "streamlit-smhi/1.0 (+example@example.com)" |}.

(** What the upstream answers: status line, declared content type (if the
    header is present), the delay in seconds asked for by a Retry-After
    header (if present), and the body text as the client decodes it
    (empty for an answer that carries no body, such as 204 and 304). *)
Record Response : Type := mk_Response {
  status_code : Z;
  content_type : option string;
  retry_after : option nat;
  text : string
}.

(** The upstream service: its answer to the [n]-th request (from 0) sent
    during a call, for a URL. Every request is answered and the answer is
    final: failures below HTTP and answers that redirect are outside this
    model. *)
Definition Upstream : Type := string -> nat -> Response.

(** [bool(response.headers.get("Retry-After"))] *)
Definition has_retry_after (r : Response) : bool :=
  match retry_after r with Some _ => true | None => false end.

(** [Retry.RETRY_AFTER_STATUS_CODES] *)
Definition RETRY_AFTER_STATUS_CODES : list Z := [413; 429; 503].

(** [Retry.is_retry(method, status, has_retry_after)], with
    [respect_retry_after_header] at its default, true. *)
Definition is_retry (retry : Retry) (method : string) (status : Z)
    (has_retry_after : bool) : bool :=
  existsb (String.eqb method) (allowed_methods retry)
  && (existsb (Z.eqb status) (status_forcelist retry)
      || (negb (Nat.eqb (total retry) 0) && has_retry_after
          && existsb (Z.eqb status) RETRY_AFTER_STATUS_CODES)).

(** The policy with its budget [total] replaced, as [Retry.increment]
    leaves it. *)
Definition with_total (retry : Retry) (n : nat) : Retry :=
  {| total := n;
     backoff_factor := backoff_factor retry;
     status_forcelist := status_forcelist retry;
     allowed_methods := allowed_methods retry;
     raise_on_status := raise_on_status retry |}.

(** The answer calls for another request, under the policy with
    [remaining] retries left. *)
Definition calls_for_retry (retry : Retry) (remaining : nat) (method : string)
    (r : Response) : bool :=
  is_retry (with_total retry remaining) method (status_code r) (has_retry_after r).

(** The request loop of the mounted adapter: send, and while the answer
    calls for a retry and the budget [remaining] is not used up, send
    again. Returns the last response (or MaxRetryError when the policy
    raises on status) and the requests sent, in order. *)
Fixpoint urlopen (retry : Retry) (remaining : nat) (method url : string)
    (server : Upstream) (sent : list string) : result Response * list string :=
  let r := server url (length sent) in
  let sent := (sent ++ [url])%list in
  if calls_for_retry retry remaining method r then
    match remaining with
    | O => (if raise_on_status retry then Raise MaxRetryError else Ok r, sent)
    | S remaining' => urlopen retry remaining' method url server sent
    end
  else (Ok r, sent).

(** [Retry.get_backoff_time()] after [errors] answers in a row that called
    for a retry; the cap is [DEFAULT_BACKOFF_MAX]. *)
Definition get_backoff_time (retry : Retry) (errors : nat) : float :=
  if (errors <=? 1)%nat then 0%float
  else
    let b := (backoff_factor retry * PyFloat.of_Z (2 ^ Z.of_nat (errors - 1)))%float in
    if (b <? 120)%float then b else 120%float.

(** [Retry.sleep(response)]: the time slept before the next request, the
    delay of a Retry-After header when it is positive and the backoff time
    otherwise (zero: no sleep). *)
Definition sleep_time (retry : Retry) (errors : nat) (r : Response) : float :=
  match retry_after r with
  | Some (S n) => PyFloat.of_Z (Z.of_nat (S n))
  | _ => get_backoff_time retry errors
  end.

(** The pauses of the request loop, one before each retry, for the loop
    started after [n] requests. *)
Fixpoint urlopen_pauses (retry : Retry) (remaining : nat) (method url : string)
    (server : Upstream) (n : nat) : list float :=
  let r := server url n in
  if calls_for_retry retry remaining method r then
    match remaining with
    | O => []
    | S remaining' =>
        sleep_time retry (S n) r
        :: urlopen_pauses retry remaining' method url server (S n)
    end
  else [].

(** [s.get(url, timeout=15)] *)
Definition Session_get (s : Session) (server : Upstream) (url : string)
  : result Response * list string :=
  urlopen (max_retries s) (total (max_retries s)) "GET" url server [].

(** The pauses taken during [s.get(url, timeout=15)]. *)
Definition Session_get_pauses (s : Session) (server : Upstream) (url : string)
  : list float :=
  urlopen_pauses (max_retries s) (total (max_retries s)) "GET" url server 0.

(** [r.raise_for_status()] raises for a 4xx or 5xx status. *)
Definition raise_for_status (r : Response) : bool :=
  (400 <=? status_code r) && (status_code r <? 600).

(** [pat in s] on strings. *)
Fixpoint str_in (pat s : string) : bool :=
  String.prefix pat s
  || match s with
     | EmptyString => false
     | String _ s' => str_in pat s'
     end.

Fixpoint replace_newline (s : string) : string :=
  match s with
  | EmptyString => EmptyString
  | String c s' =>
      String (if Ascii.eqb c "010"%char then " "%char else c) (replace_newline s')
  end.

(** [(r.text or "")[:200].replace("\n", " ")] *)
Definition body_sample (r : Response) : string :=
  replace_newline (String.substring 0 200 (text r)).

Definition coordinates_valid (lat lon : float) : bool :=
  ((-90 <=? lat) && (lat <=? 90) && ((-180 <=? lon) && (lon <=? 180)))%float.

Section Fetcher.

(** The JSON decoder behind [r.json()]; [None] stands for its
    JSONDecodeError. *)
Variable json_loads : string -> option pyval.

Variable server : Upstream.

(** [fetch_smhi(lat, lon)]: the outcome and the requests sent. The
    result cache put around the function by the shell is not part of it. *)
Definition fetch_smhi (lat lon : float) : result pyval * list string :=
  if negb (coordinates_valid lat lon)
  then (Raise (InvalidCoordinates lat lon), [])
  else
    let url := SMHI_ENDPOINT_format (format_6f lat) (format_6f lon) in
    let s := _requests_session in
    let '(got, sent) := Session_get s server url in
    (let* r := got in
     if raise_for_status r
     then Raise (HttpStatusError (status_code r) (body_sample r))
     else
       let ct := match content_type r with Some c => c | None => "" end in
       if negb (str_in "application/json" ct)
       then Raise (NotJsonError ct (body_sample r))
       else
         match json_loads (text r) with
         | Some v => Ok v
         | None => Raise (JsonDecodeError (body_sample r))
         end,
     sent).

End Fetcher.

(** * Definitions for the statements and the examples *)

(** ** Compass sectors in integer arithmetic *)





(** The exact value of a finite float, as a fraction [n / d] with [d]
    positive. *)
Definition float_ratio (x : float) : option (Z * Z) :=
  match Prim2SF x with
  | S754_zero _ => Some (0, 1)
  | S754_finite s m e =>
      let n := if s then Zneg m else Zpos m in
      Some (if 0 <=? e then (n * 2 ^ e, 1) else (n, 2 ^ (- e)))
  | _ => None
  end.

(** The angle lies in sector [i]: within 11.25 degrees of the centre
    [22.5 * i], modulo a full turn (lower bound included, upper not). In
    quarter degrees the centre is [90 * i] and a turn 1440. *)
Definition in_sector (x : float) (i : Z) : Prop :=
  exists n d t,
    float_ratio x = Some (n, d)
    /\ -45 * d <= 4 * n - (90 * i + 1440 * t) * d < 45 * d.

(** The label returned is that of the sector the angle lies in. *)
Definition maps_to_nearest_sector (deg : float) : Prop :=
  exists i d,
    0 <= i < 16 /\ in_sector deg i
    /\ dirs !! Z.to_nat i = Some d /\ _deg_to_cardinal deg = Ok d.


(** ** The session's policy, the request URL and example upstreams *)

Definition smhi_retry : Retry := max_retries _requests_session.

Definition smhi_url (lat lon : float) : string :=
  SMHI_ENDPOINT_format (format_6f lat) (format_6f lon).

(** Upstreams and a decoder for the examples. *)
Definition json_200 : Response :=
  {| status_code := 200; content_type := Some "application/json";
     retry_after := None; text := "{}" |}.

Definition unavailable_503 : Response :=
  {| status_code := 503; content_type := Some "text/html";
     retry_after := None; text := "Service Unavailable" |}.


(** 503 three times, then 200. *)
Definition flaky_upstream : Upstream :=
  fun _ n => if (n <? 3)%nat then unavailable_503 else json_200.

Definition down_upstream : Upstream := fun _ _ => unavailable_503.


Definition loads_empty_object (s : string) : option pyval :=
  if String.eqb s "{}" then Some (PDict []) else None.

(** ** Order of rows, an ISO-8601 parser instance and example payloads *)

Definition time_le (a b : Row) : Prop := instant (time a) <= instant (time b).

Definition digit (c : ascii) : option Z :=
  let n := Z.of_N (N_of_ascii c) in
  if (48 <=? n) && (n <=? 57) then Some (n - 48) else None.

Definition two_digits (a b : ascii) : option Z :=
  match digit a, digit b with
  | Some x, Some y => Some (10 * x + y)
  | _, _ => None
  end.

(** Days from 1970-01-01 to the given date of the Gregorian calendar. *)
Definition days_from_civil (y m d : Z) : Z :=
  let y' := if m <=? 2 then y - 1 else y in
  let era := y' / 400 in
  let yoe := y' - era * 400 in
  let doy := (153 * (if 2 <? m then m - 3 else m + 9) + 2) / 5 + d - 1 in
  let doe := yoe * 365 + yoe / 4 - yoe / 100 + doy in
  era * 146097 + doe - 719468.

(** The zone designator after the time: none, Z, or a signed HH:MM. *)
Definition parse_offset (l : list ascii) : option (option Z) :=
  match l with
  | [] => Some None
  | ["Z"%char] => Some (Some 0)
  | [sg; h1; h2; ":"%char; m1; m2] =>
      match two_digits h1 h2, two_digits m1 m2 with
      | Some h, Some m =>
          let off := (h * 3600 + m * 60) * 1000000 in
          if Ascii.eqb sg "+"%char then Some (Some off)
          else if Ascii.eqb sg "-"%char then Some (Some (- off))
          else None
      | _, _ => None
      end
  | _ => None
  end.

(** An instance of the ISO-8601 parser on the format the upstream uses,
    YYYY-MM-DDTHH:MM:SS followed by nothing, Z or a signed HH:MM. *)
Definition isoparse_seconds (s : string) : option datetime :=
  match list_ascii_of_string s with
  | y1 :: y2 :: y3 :: y4 :: "-"%char :: mo1 :: mo2 :: "-"%char :: d1 :: d2
      :: "T"%char :: h1 :: h2 :: ":"%char :: mi1 :: mi2 :: ":"%char
      :: s1 :: s2 :: zone =>
      match two_digits y1 y2, two_digits y3 y4, two_digits mo1 mo2,
            two_digits d1 d2, two_digits h1 h2, two_digits mi1 mi2,
            two_digits s1 s2, parse_offset zone with
      | Some yh, Some yl, Some mo, Some d, Some h, Some mi, Some sec, Some tz =>
          if (1 <=? mo) && (mo <=? 12) && (1 <=? d) && (d <=? 31)
             && (h <? 24) && (mi <? 60) && (sec <? 60)
          then
            let days := days_from_civil (100 * yh + yl) mo d in
            Some {| wall := ((days * 24 + h) * 3600 + mi * 60 + sec) * 1000000;
                    tzinfo := tz |}
          else None
      | _, _, _, _, _, _, _, _ => None
      end
  | _ => None
  end.

(** Central European Time, the offset of Europe/Stockholm outside summer
    time. *)
Definition CET : Z -> Z := fun _ => 3600000000.

Definition param (name : string) (values : pyval) : pyval :=
  PDict [("name", PStr name); ("values", values)].

Definition entry (valid_time : string) (parameters : list pyval) : pyval :=
  PDict [("validTime", PStr valid_time); ("parameters", PList parameters)].

(** Two entries out of order; the later one has a NaN precipitation, the
    earlier one none. *)
Definition entries_two : list pyval :=
  [entry "2025-11-04T13:00:00Z"
     [param "t" (PList [PFloat 4.5]);
      param "pmean" (PList [PFloat PrimFloat.nan])];
   entry "2025-11-04T12:00:00Z"
     [param "t" (PList [PFloat 5]);
      param "wd" (PList [PInt 180])]].

Definition payload_two : pyval :=
  PDict [("approvedTime", PStr "2025-11-04T10:00:00Z");
         ("timeSeries", PList entries_two)].

Definition row_12 : Row :=
  {| time := {| wall := 1762261200000000; tzinfo := Some 3600000000 |};
     temp_C := PFloat 5; wind_ms := nan; gust_ms := nan;
     precip_mm_h := PFloat 0; cloud_okta := nan; msl_hPa := nan;
     rh_pct := nan; wind_deg := PInt 180 |}.

Definition row_13 : Row :=
  {| time := {| wall := 1762264800000000; tzinfo := Some 3600000000 |};
     temp_C := PFloat 4.5; wind_ms := nan; gust_ms := nan;
     precip_mm_h := PFloat 0; cloud_okta := nan; msl_hPa := nan;
     rh_pct := nan; wind_deg := nan |}.

Definition table_two : DataFrame :=
  {| columns := row_keys; records := [row_12; row_13] |}.

(** The entries the loop of [smhi_to_df] visits (none when the payload has
    no iterable time series). *)
Definition entries (payload : pyval) : list pyval :=
  match Py.get payload "timeSeries" (PList []) with
  | Ok ts0 =>
      match Py.iter (Py.or_ ts0 (PList [])) with
      | Ok items => items
      | Raise _ => []
      end
  | Raise _ => []
  end.

(** The entry is an object whose validTime is a string that parses. *)
Definition has_parseable_validTime (isoparse : string -> option datetime)
    (item : pyval) : bool :=
  match item with
  | PDict kv =>
      match Py.lookup kv "validTime" with
      | Some (PStr s) =>
          match isoparse s with Some _ => true | None => false end
      | _ => false
      end
  | _ => false
  end.

(** The parameter is an object whose values are absent, null or a list. *)
Definition values_well_formed (p : pyval) : bool :=
  match p with
  | PDict kv =>
      match Py.lookup kv "values" with
      | None | Some PNone | Some (PList _) => true
      | _ => false
      end
  | _ => false
  end.

(** The entry's parameters are absent or a list of such parameters. *)
Definition parameters_well_formed (item : pyval) : bool :=
  match item with
  | PDict kv =>
      match Py.lookup kv "parameters" with
      | None => true
      | Some (PList ps) => forallb values_well_formed ps
      | _ => false
      end
  | _ => false
  end.

(** The temperature is given as a number, not as a list holding it. *)
Definition payload_scalar_values : pyval :=
  PDict [("timeSeries",
          PList [entry "2025-11-04T12:00:00Z" [param "t" (PFloat 3.5)]])].

Definition payload_missing_validTime : pyval :=
  PDict [("timeSeries",
          PList [entry "2025-11-04T12:00:00Z" [param "t" (PList [PFloat 5])];
                 PDict [("parameters", PList [])]])].

(** The distance of a row's time from [now]. *)
Definition distance (now : datetime) (r : Row) : Z :=
  Z.abs (instant (time r) - instant now).

(** A clock reading in Stockholm winter time, [minutes] after
    2025-11-04T12:00:00Z. *)
Definition at_minutes (minutes : Z) : datetime :=
  {| wall := 1762261200000000 + minutes * 60000000; tzinfo := Some 3600000000 |}.

Definition row_at (minutes : Z) (temp : float) : Row :=
  {| time := at_minutes minutes;
     temp_C := PFloat temp; wind_ms := nan; gust_ms := nan;
     precip_mm_h := PFloat 0; cloud_okta := nan; msl_hPa := nan;
     rh_pct := nan; wind_deg := nan |}.

(** Rows ten minutes before and five minutes after 12:00Z. *)
Definition table_near : DataFrame :=
  {| columns := row_keys; records := [row_at (-10) 4; row_at 5 6] |}.

(** A frame that kept its columns and lost its rows. *)
Definition table_no_rows : DataFrame := {| columns := row_keys; records := [] |}.

(** The row's time lies in the closed interval from [now] to [hours]
    hours later. *)
Definition in_window (now : datetime) (hours : Z) (r : Row) : Prop :=
  instant now <= instant (time r) <= instant now + hours * 3600000000.

Definition in_windowb (now : datetime) (hours : Z) (r : Row) : bool :=
  (instant now <=? instant (time r))
  && (instant (time r) <=? instant now + Timedelta_hours hours).

(** Rows one minute before [now], at [now], 48 hours later and one minute
    after that. *)
Definition table_bounds : DataFrame :=
  {| columns := row_keys;
     records := [row_at (-1) 1; row_at 0 2; row_at 2880 3; row_at 2881 4] |}.

(** ** Definitions for further properties of the normaliser *)

(** The parameter is an object whose name is not [name]. *)
Definition other_name (name : string) (p : pyval) : bool :=
  match p with
  | PDict kv =>
      match Py.lookup kv "name" with
      | Some n => negb (Py.eq_str n name)
      | None => true
      end
  | _ => false
  end.

(** The instant a parsed timestamp denotes: a naive one counts as UTC. *)
Definition parsed_instant (d : datetime) : Z :=
  match tzinfo d with
  | Some off => wall d - off
  | None => wall d
  end.

(** The instant an entry's validTime denotes (zero when the entry has no
    string there that parses). *)
Definition entry_instant (isoparse : string -> option datetime) (item : pyval) : Z :=
  match item with
  | PDict kv =>
      match Py.lookup kv "validTime" with
      | Some (PStr s) =>
          match isoparse s with Some d => parsed_instant d | None => 0 end
      | _ => 0
      end
  | _ => 0
  end.

(** The datetime, taken to UTC and then to the zone, stays within the
    range of [datetime]. *)
Definition representable (tz : Z -> Z) (d : datetime) : bool :=
  in_datetime_range (parsed_instant d)
  && in_datetime_range (parsed_instant d + tz (parsed_instant d)).

(** The entry is an object whose validTime is a string that parses to a
    time representable in the zone. *)
Definition has_convertible_validTime (isoparse : string -> option datetime)
    (tz : Z -> Z) (item : pyval) : bool :=
  match item with
  | PDict kv =>
      match Py.lookup kv "validTime" with
      | Some (PStr s) =>
          match isoparse s with Some d => representable tz d | None => false end
      | _ => false
      end
  | _ => false
  end.

(** The last second of the year 9999, in UTC. *)
Definition payload_year_9999 : pyval :=
  PDict [("timeSeries",
          PList [PDict [("validTime", PStr "9999-12-31T23:59:59Z");
                        ("parameters", PList [])]])].

(** The row [smhi_to_df] builds for an entry (a blank row when building
    it raises). *)
Definition row_built (isoparse : string -> option datetime) (STHLM_TZ : Z -> Z)
    (item : pyval) : Row :=
  match row_of_item isoparse STHLM_TZ item with
  | Ok r => r
  | Raise _ => mk_Row (mk_datetime 0 None) PNone PNone PNone PNone PNone PNone PNone PNone
  end.

(** The entries of [payload_two], the earlier one first. *)
Definition payload_two_swapped : pyval :=
  PDict [("timeSeries",
          PList [entry "2025-11-04T12:00:00Z"
                   [param "t" (PList [PFloat 5]);
                    param "wd" (PList [PInt 180])];
                 entry "2025-11-04T13:00:00Z"
                   [param "t" (PList [PFloat 4.5]);
                    param "pmean" (PList [PFloat PrimFloat.nan])]])].

(** ** The retry claim, as the specification words it *)



(** ** Definitions for further properties of the fetcher *)

(** A body sample fit for a one-line message: at most 200 characters and
    no newline. *)
Definition sample_ok (s : string) : Prop :=
  (String.length s <= 200)%nat
  /\ ~ In "010"%char (list_ascii_of_string s).

(** The status calls for a retry under the session's policy. *)
Definition retry_status (st : Z) : Prop :=
  st = 429 \/ st = 500 \/ st = 502 \/ st = 503 \/ st = 504.

(** 200 with JSON and a charset parameter. *)
Definition charset_upstream : Upstream :=
  fun _ _ => {| status_code := 200;
                content_type := Some "application/json; charset=utf-8";
                retry_after := None; text := "{}" |}.

Definition not_found_404 : Response :=
  {| status_code := 404; content_type := Some "application/json";
     retry_after := None; text := "{}" |}.

(** 413 asking to come back after one second, then 200. *)
Definition too_large_upstream : Upstream :=
  fun _ n =>
    if (n <? 1)%nat
    then {| status_code := 413; content_type := Some "text/html";
            retry_after := Some 1%nat; text := "Payload Too Large" |}
    else json_200.

(** ** The preset locations of the dashboard *)

(** [DEFAULT_PRESETS]: name, latitude, longitude. *)
#[warnings="-inexact-float"]
Definition DEFAULT_PRESETS : list (string * float * float) :=
  [("Stockholm", 59.3293, 18.0686);
   ("Göteborg", 57.7089, 11.9746);
   ("Malmö", 55.60498, 13.00382);
   ("Umeå", 63.8258, 20.2630);
   ("Östersund", 63.1792, 14.6357)]%float.

(** * The number-guessing game

    Shallow embedding of [src/04-11-2025/app.py]. Standard input is the
    list of the lines still to be read; reading past its end is
    end-of-file. What the program writes is a list of events, prompts
    (written by [input]) and printed lines. The secret numbers drawn by
    [random.randint] are arguments. The interrupt key is not part of the
    model. *)

Module App.

Inductive event : Type :=
  | Prompt (s : string)
  | Print (s : string).

(** What ends the program from inside a call. *)
Inductive stop : Type :=
  | SystemExit (code : Z)
  | EOFError.

Inductive outcome (A : Type) : Type :=
  | Done (a : A)
  | Stop (e : stop).
Arguments Done {A} a.
Arguments Stop {A} e.

Definition BANNER : string := "
=================================
    Gissa talet - super enkel
=================================
Gissa ett tal mellan 1 och 100.
Tryck Ctrl+C för att avsluta.
".

Definition quit_words : list string := ["q"; "quit"; "exit"].

Definition complaint : string :=
  "Skriv ett heltal tack (eller 'q' för att avsluta).".

Definition eof_message : string := String "010"%char "EOF - avslutar.".

Definition guess_prompt : string := "Din gissning: ".

Definition again_prompt : string := "Igen? (j/n): ".

(** [str(n)] for an integer. *)
Definition str_of_int (n : Z) : string := NilZero.string_of_int (Z.to_int n).

Definition won_message (tries : Z) : string :=
  ("Rätt! Du behövde " ++ str_of_int tries ++ " försök.")%string.

Section Program.

(** The string methods [str.strip] and [str.lower], and [int] on a
    string ([None] stands for its ValueError). *)
Variable strip : string -> string.
Variable lower : string -> string.
Variable int : string -> option Z.

(** The line asks to leave: [val.lower() in {"q", "quit", "exit"}]. *)
Definition is_quit (val : string) : bool :=
  existsb (String.eqb (lower val)) quit_words.

(** [ask_int(prompt)]: the outcome, the lines left on standard input and
    what was written. *)
Fixpoint ask_int (prompt : string) (stdin : list string)
  : outcome Z * list string * list event :=
  match stdin with
  | [] => (Stop (SystemExit 0), [], [Prompt prompt; Print eof_message])
  | line :: rest =>
      let val := strip line in
      if is_quit val
      then (Stop (SystemExit 0), rest, [Prompt prompt; Print "Hejdå!"])
      else
        match int val with
        | Some n => (Done n, rest, [Prompt prompt])
        | None =>
            let '(o, rest', out) := ask_int prompt rest in
            (o, rest', Prompt prompt :: Print complaint :: out)
        end
  end.

(** The [while True] loop of [play_round]; [fuel] bounds the number of
    guesses taken. *)
Fixpoint guess_loop (fuel : nat) (secret tries : Z) (stdin : list string)
  : option (outcome unit * list string * list event) :=
  match fuel with
  | O => None
  | S fuel' =>
      let '(o, rest, out) := ask_int guess_prompt stdin in
      match o with
      | Stop e => Some (Stop e, rest, out)
      | Done guess =>
          let tries := tries + 1 in
          if guess <? secret then
            match guess_loop fuel' secret tries rest with
            | Some (o', rest', out') =>
                Some (o', rest', (out ++ Print "För lågt." :: out')%list)
            | None => None
            end
          else if secret <? guess then
            match guess_loop fuel' secret tries rest with
            | Some (o', rest', out') =>
                Some (o', rest', (out ++ Print "För högt." :: out')%list)
            | None => None
            end
          else Some (Done tt, rest, (out ++ [Print (won_message tries)])%list)
      end
  end.

(** [play_round()], for the secret drawn. Every guess reads a line, so
    one more round of the loop than there are lines is enough. *)
Definition play_round (secret : Z) (stdin : list string)
  : option (outcome unit * list string * list event) :=
  match guess_loop (S (length stdin)) secret 0 stdin with
  | Some (o, rest, out) => Some (o, rest, Print BANNER :: out)
  | None => None
  end.

(** The loop of [main]; [secrets] gives the secret of each round. The
    end of input at the question whether to play again is an EOFError
    that nothing catches. *)
Fixpoint main_loop (fuel : nat) (secrets : nat -> Z) (round : nat)
    (stdin : list string)
  : option (outcome unit * list string * list event) :=
  match fuel with
  | O => None
  | S fuel' =>
      match play_round (secrets round) stdin with
      | None => None
      | Some (Stop e, rest, out) => Some (Stop e, rest, out)
      | Some (Done _, rest, out) =>
          match rest with
          | [] => Some (Stop EOFError, [], (out ++ [Prompt again_prompt])%list)
          | line :: rest' =>
              let again := lower (strip line) in
              if negb (String.prefix "j" again)
              then Some (Done tt, rest',
                         (out ++ [Prompt again_prompt; Print "Klart! 👋"])%list)
              else
                match main_loop fuel' secrets (S round) rest' with
                | Some (o', rest'', out') =>
                    Some (o', rest'', (out ++ Prompt again_prompt :: out')%list)
                | None => None
                end
          end
      end
  end.

Definition main (secrets : nat -> Z) (stdin : list string)
  : option (outcome unit * list string * list event) :=
  main_loop (S (length stdin)) secrets 0 stdin.

End Program.

(** Instances of the built-ins on ASCII text, for the examples. *)

Definition is_space (c : ascii) : bool :=
  let n := nat_of_ascii c in
  ((9 <=? n)%nat && (n <=? 13)%nat) || ((28 <=? n)%nat && (n <=? 32)%nat).

Fixpoint lstrip (s : list ascii) : list ascii :=
  match s with
  | c :: s' => if is_space c then lstrip s' else s
  | [] => []
  end.

Definition ascii_strip (s : string) : string :=
  string_of_list_ascii (rev (lstrip (rev (lstrip (list_ascii_of_string s))))).

Definition lower_char (c : ascii) : ascii :=
  let n := nat_of_ascii c in
  if (65 <=? n)%nat && (n <=? 90)%nat then ascii_of_nat (n + 32) else c.

Definition ascii_lower (s : string) : string :=
  string_of_list_ascii (map lower_char (list_ascii_of_string s)).

Fixpoint digits_value (acc : Z) (l : list ascii) : option Z :=
  match l with
  | [] => Some acc
  | c :: l' =>
      match digit c with
      | Some d => digits_value (10 * acc + d) l'
      | None => None
      end
  end.

(** Decimal integers with an optional sign. *)
Definition int_of_decimal (s : string) : option Z :=
  match list_ascii_of_string s with
  | [] => None
  | "-"%char :: (_ :: _) as l => option_map Z.opp (digits_value 0 l)
  | "+"%char :: (_ :: _) as l => digits_value 0 l
  | l => digits_value 0 l
  end.

End App.

(** ** Definitions for the properties of the game *)

(** The line is neither a request to leave nor an integer. *)
Definition rejected_line (strip lower : string -> string) (int : string -> option Z)
    (line : string) : Prop :=
  App.is_quit lower (strip line) = false /\ int (strip line) = None.

(** The line is read as the integer [n]. *)
Definition line_reads_as (strip lower : string -> string) (int : string -> option Z)
    (line : string) (n : Z) : Prop :=
  App.is_quit lower (strip line) = false /\ int (strip line) = Some n.

(** What [ask_int] writes for the lines it rejects. *)
Definition complaints (prompt : string) (bad : list string) : list App.event :=
  flat_map (fun _ => [App.Prompt prompt; App.Print App.complaint]) bad.

(** The answer of [play_round] to a wrong guess. *)
Definition hint (secret guess : Z) : string :=
  if guess <? secret then "För lågt." else "För högt.".

(** What [play_round] writes for a run of wrong guesses. *)
Definition hints (secret : Z) (guesses : list Z) : list App.event :=
  flat_map (fun g => [App.Prompt App.guess_prompt; App.Print (hint secret g)]) guesses.

(** * Properties *)

(** ** Compass labels *)






(** On the grid the label is that of the sector the angle lies in, as at
    359 degrees, which lies in the sector of N a turn further on. *)
Example nearest_sector_359 : maps_to_nearest_sector 359.
Proof.
  exists 0, "N". split; [lia|]. split; [|split; [reflexivity|vm_compute; reflexivity]].
  eexists _, _, 1. split; [vm_compute; reflexivity|lia].
Qed.


(** An infinite angle is not NaN: the floor division yields NaN and
    [int] raises. *)
Example deg_to_cardinal_infinity :
  _deg_to_cardinal PrimFloat.infinity = Raise ValueError.
Proof. vm_compute. reflexivity. Qed.


(** ** The fetcher *)

(** Under the session's policy an answer to a GET calls for a retry when
    its status is on the force list, or when it carries a Retry-After
    header with status 413, 429 or 503 while retries are left. *)
Lemma calls_for_retry_iff remaining r :
  calls_for_retry smhi_retry remaining "GET" r = true
  <-> retry_status (status_code r)
      \/ (remaining <> 0%nat /\ retry_after r <> None
          /\ In (status_code r) [413; 429; 503]).
Proof.
  unfold calls_for_retry, is_retry, has_retry_after, retry_status, smhi_retry.
  cbn. rewrite !orb_false_r, !orb_true_iff, !andb_true_iff, !orb_true_iff,
    !Z.eqb_eq, negb_true_iff, Nat.eqb_neq.
  destruct (retry_after r); split; intros H.
  - destruct H as [H|[[H1 _] H2]]; [left; tauto|right].
    repeat split; [exact H1|discriminate|lia].
  - destruct H as [H|(H1 & _ & H2)]; [left; tauto|right].
    repeat split; [exact H1|]. destruct H2 as [H2|[H2|[H2|[]]]]; auto.
  - destruct H as [H|[[_ H] _]]; [left; tauto|discriminate].
  - destruct H as [H|(_ & H & _)]; [left; tauto|congruence].
Qed.


Lemma urlopen_no_retry retry remaining method url server sent :
  calls_for_retry retry remaining method (server url (length sent)) = false ->
  urlopen retry remaining method url server sent
  = (Ok (server url (length sent)), (sent ++ [url])%list).
Proof. intros H. destruct remaining; cbn [urlopen]; rewrite H; reflexivity. Qed.

Lemma urlopen_retry retry remaining method url server sent :
  calls_for_retry retry (S remaining) method (server url (length sent)) = true ->
  urlopen retry (S remaining) method url server sent
  = urlopen retry remaining method url server (sent ++ [url])%list.
Proof. intros H. cbn [urlopen]. rewrite H. reflexivity. Qed.

(** The loop sends between one and [remaining + 1] requests, all for the
    same URL, and hands back a response unless the policy raises. *)
Lemma urlopen_sends retry remaining method url server sent :
  raise_on_status retry = false ->
  exists r k,
    (k <= remaining)%nat
    /\ urlopen retry remaining method url server sent
       = (Ok r, (sent ++ repeat url (S k))%list).
Proof.
  intros Hraise. revert sent.
  induction remaining as [|n IH]; intros sent.
  - cbn [urlopen]. rewrite Hraise.
    exists (server url (length sent)), 0%nat.
    split; [lia|]. destruct (calls_for_retry _ _ _ _); reflexivity.
  - destruct (calls_for_retry retry (S n) method (server url (length sent))) eqn:E.
    + rewrite urlopen_retry by exact E.
      destruct (IH (sent ++ [url])%list) as (r & k & Hk & ->).
      exists r, (S k). split; [lia|].
      rewrite <- app_assoc. reflexivity.
    + rewrite urlopen_no_retry by exact E.
      exists (server url (length sent)), 0%nat. split; [lia|]. reflexivity.
Qed.

Lemma length_replace_newline s :
  String.length (replace_newline s) = String.length s.
Proof. induction s as [|c s IH]; cbn; [reflexivity|]. rewrite IH. reflexivity. Qed.

Lemma length_substring_0 n s :
  String.length (String.substring 0 n s) = Nat.min n (String.length s).
Proof.
  revert s. induction n as [|n IH]; intros s.
  - destruct s; reflexivity.
  - destruct s as [|c s]; cbn; [reflexivity|]. rewrite IH. reflexivity.
Qed.

Lemma body_sample_length r :
  String.length (body_sample r) = Nat.min 200 (String.length (text r)).
Proof.
  unfold body_sample. rewrite length_replace_newline.
  apply length_substring_0.
Qed.

(** C6. Coordinates out of range make [fetch_smhi] raise the coordinate
    error with no request sent; coordinates in range pass the check: the
    error is not raised and the requests sent are for exactly these
    latitude and longitude. *)
Theorem fetch_validates_coordinates
    (json_loads : string -> option pyval) (server : Upstream) (lat lon : float) :
  (((-90 <=? lat)%float = false \/ (lat <=? 90)%float = false
    \/ (-180 <=? lon)%float = false \/ (lon <=? 180)%float = false) ->
   fetch_smhi json_loads server lat lon = (Raise (InvalidCoordinates lat lon), []))
  /\ (((-90 <=? lat)%float = true /\ (lat <=? 90)%float = true
       /\ (-180 <=? lon)%float = true /\ (lon <=? 180)%float = true) ->
      exists out sent,
        fetch_smhi json_loads server lat lon = (out, sent)
        /\ (forall a b, out <> Raise (InvalidCoordinates a b))
        /\ sent <> []
        /\ Forall (eq (smhi_url lat lon)) sent).
Proof.
  split.
  - intros H. unfold fetch_smhi, coordinates_valid.
    destruct H as [-> | [-> | [-> | ->]]]; cbn;
      rewrite ?andb_false_r; reflexivity.
  - intros (H1 & H2 & H3 & H4). unfold fetch_smhi, coordinates_valid.
    rewrite H1, H2, H3, H4. cbn [andb negb]. unfold Session_get.
    fold (smhi_url lat lon). fold smhi_retry.
    destruct (urlopen_sends smhi_retry (total smhi_retry) "GET" (smhi_url lat lon)
                server [] eq_refl) as (r & k & _ & ->).
    eexists _, _. split; [reflexivity|]. split; [|split].
    + intros a b. cbn [bind].
      destruct (raise_for_status r); [discriminate|].
      destruct (negb _); [discriminate|].
      destruct (json_loads _); discriminate.
    + discriminate.
    + apply List.Forall_forall. intros u Hu. cbn [app] in Hu.
      apply repeat_spec in Hu. congruence.
Qed.

Lemma fetch_validates_coordinates_witness :
  fetch_smhi loads_empty_object flaky_upstream 90.5 18
  = (Raise (InvalidCoordinates 90.5 18), [])
  /\ exists out sent,
       fetch_smhi loads_empty_object flaky_upstream 59.5 18 = (out, sent)
       /\ (forall a b, out <> Raise (InvalidCoordinates a b))
       /\ sent <> []
       /\ Forall (eq (smhi_url 59.5 18)) sent.
Proof.
  split.
  - apply (fetch_validates_coordinates loads_empty_object flaky_upstream 90.5 18).
    right; left. reflexivity.
  - apply (fetch_validates_coordinates loads_empty_object flaky_upstream 59.5 18).
    repeat split; reflexivity.
Defined.






Example session_pauses_down :
  Session_get_pauses _requests_session down_upstream "u" = [0; 1; 2]%float
  /\ Session_get_pauses _requests_session too_large_upstream "u" = [1]%float.
Proof. split; vm_compute; reflexivity. Qed.



(** ** The normaliser *)

Lemma bind_Ok {A B} (m : result A) (k : A -> result B) b :
  bind m k = Ok b -> exists a, m = Ok a /\ k a = Ok b.
Proof. destruct m as [a|e]; cbn; [eauto|discriminate]. Qed.

Lemma bind_Raise {A B} (m : result A) (k : A -> result B) e :
  m = Raise e -> bind m k = Raise e.
Proof. intros ->. reflexivity. Qed.

Lemma insert_by_time_HdRel r x l :
  instant (time x) <= instant (time r) ->
  HdRel time_le x l -> HdRel time_le x (pd.insert_by_time r l).
Proof.
  intros Hx Hl. destruct l as [|y l]; cbn.
  - constructor. exact Hx.
  - destruct (Z.leb_spec (instant (time r)) (instant (time y))).
    + constructor. exact Hx.
    + constructor. inversion Hl; assumption.
Qed.

Lemma insert_by_time_Sorted r l :
  Sorted time_le l -> Sorted time_le (pd.insert_by_time r l).
Proof.
  induction 1 as [|x l Hs IH Hd]; cbn.
  - repeat constructor.
  - destruct (Z.leb_spec (instant (time r)) (instant (time x))) as [Hle|Hgt].
    + constructor; [constructor; assumption|]. constructor. exact Hle.
    + constructor; [exact IH|].
      apply insert_by_time_HdRel; [unfold time_le in *; lia|exact Hd].
Qed.

Lemma sort_by_time_Sorted l : Sorted time_le (pd.sort_by_time l).
Proof.
  induction l as [|r l IH]; cbn; [constructor|].
  apply insert_by_time_Sorted. exact IH.
Qed.

Lemma insert_by_time_Permutation r l : Permutation (r :: l) (pd.insert_by_time r l).
Proof.
  induction l as [|x l IH]; cbn; [reflexivity|].
  destruct (instant (time r) <=? instant (time x)); [reflexivity|].
  rewrite perm_swap. constructor. exact IH.
Qed.

Lemma sort_by_time_Permutation l : Permutation l (pd.sort_by_time l).
Proof.
  induction l as [|r l IH]; cbn; [reflexivity|].
  rewrite <- insert_by_time_Permutation. constructor. exact IH.
Qed.

(** A list sorted pairwise has its neighbours in order. *)
Lemma Sorted_adjacent (l : list Row) (i : nat) a b :
  Sorted time_le l -> l !! i = Some a -> l !! S i = Some b -> time_le a b.
Proof.
  intros Hs. revert i. induction Hs as [|x l Hs IH Hd]; intros i Ha Hb.
  - discriminate.
  - destruct i as [|i]; cbn in Ha, Hb.
    + injection Ha as ->. destruct l as [|y l]; [discriminate|].
      cbn in Hb. injection Hb as ->. inversion Hd; assumption.
    + eapply IH; eassumption.
Qed.

Lemma fillna_precip_time v df :
  map time (records (pd.fillna_precip v df)) = map time (records df).
Proof. cbn. rewrite map_map. reflexivity. Qed.

Lemma Sorted_map_time (l1 l2 : list Row) :
  map time l1 = map time l2 -> Sorted time_le l1 -> Sorted time_le l2.
Proof.
  intros Heq Hs. revert l2 Heq.
  induction Hs as [|x l Hs IH Hd]; intros [|y l2] Heq; try discriminate.
  - constructor.
  - cbn in Heq. injection Heq as Hxy Hl.
    constructor; [apply IH; exact Hl|].
    destruct l2 as [|z l2]; [constructor|].
    destruct l as [|w l]; [discriminate|].
    cbn in Hl. injection Hl as Hwz _.
    inversion Hd as [|? ? Hxw]; subst. constructor.
    unfold time_le in *. rewrite <- Hxy, <- Hwz. exact Hxw.
Qed.

Section NormalizerFacts.

Variable isoparse : string -> option datetime.
Variable STHLM_TZ : Z -> Z.

(** What a successful run of [smhi_to_df] went through: the loop built at
    least one row, the frame has the nine columns, and its rows are the
    sorted rows with the precipitation post-pass applied. *)
Lemma smhi_to_df_Ok payload df :
  smhi_to_df isoparse STHLM_TZ payload = Ok df ->
  exists ts0 items rows,
    Py.get payload "timeSeries" (PList []) = Ok ts0
    /\ Py.iter (Py.or_ ts0 (PList [])) = Ok items
    /\ rows_of_items isoparse STHLM_TZ items = Ok rows
    /\ rows <> []
    /\ df = pd.fillna_precip (PFloat 0)
              {| columns := row_keys; records := pd.sort_by_time rows |}.
Proof.
  unfold smhi_to_df. intros H.
  apply bind_Ok in H as (ts0 & Hts0 & H).
  apply bind_Ok in H as (items & Hitems & H).
  apply bind_Ok in H as (rows & Hrows & H).
  apply bind_Ok in H as (df0 & Hsort & H).
  exists ts0, items, rows. repeat (split; [assumption|]).
  destruct rows as [|r rows]; [discriminate|].
  split; [discriminate|].
  cbn in Hsort. injection Hsort as <-. cbn in H. injection H as <-. reflexivity.
Qed.

Lemma rows_of_items_length items rows :
  rows_of_items isoparse STHLM_TZ items = Ok rows -> length rows = length items.
Proof.
  revert rows. induction items as [|item items IH]; intros rows H; cbn in H.
  - injection H as <-. reflexivity.
  - apply bind_Ok in H as (row & _ & H).
    apply bind_Ok in H as (rows' & Hrows' & H).
    injection H as <-. cbn. rewrite (IH _ Hrows'). reflexivity.
Qed.

End NormalizerFacts.

(** C2. Whatever the payload, a table that [smhi_to_df] produces has each
    row no later than the next one. *)
Theorem smhi_to_df_sorted
    (isoparse : string -> option datetime) (STHLM_TZ : Z -> Z)
    (payload : pyval) (df : DataFrame) :
  smhi_to_df isoparse STHLM_TZ payload = Ok df ->
  forall (i : nat) (r1 r2 : Row),
    records df !! i = Some r1 ->
    records df !! S i = Some r2 ->
    instant (time r1) <= instant (time r2).
Proof.
  intros H i r1 r2 H1 H2.
  apply smhi_to_df_Ok in H as (_ & _ & rows & _ & _ & _ & _ & ->).
  eapply (Sorted_adjacent _ i r1 r2); [|exact H1|exact H2].
  eapply Sorted_map_time; [|apply (sort_by_time_Sorted rows)].
  symmetry.
  apply (fillna_precip_time (PFloat 0)
           {| columns := row_keys; records := pd.sort_by_time rows |}).
Qed.

(** C4. In a table that [smhi_to_df] produces no row has a missing
    precipitation value (neither NaN nor None); [_safe_get_param] gives the
    default 0.0 when no parameter is named pmean; and the post-pass turns a
    missing value into 0.0. *)
Theorem smhi_to_df_precip_not_nan
    (isoparse : string -> option datetime) (STHLM_TZ : Z -> Z) :
  (forall payload df,
     smhi_to_df isoparse STHLM_TZ payload = Ok df ->
     Forall (fun r => pd.isna (precip_mm_h r) = false) (records df))
  /\ (forall ps,
        Forall (fun p => exists kv n,
                  p = PDict kv /\ Py.get p "name" PNone = Ok n
                  /\ Py.eq_str n "pmean" = false) ps ->
        _safe_get_param (PList ps) "pmean" (PFloat 0) = Ok (PFloat 0))
  /\ (forall v, pd.isna v = true -> pd.fillna (PFloat 0) v = PFloat 0).
Proof.
  split; [|split].
  - intros payload df H.
    apply smhi_to_df_Ok in H as (_ & _ & rows & _ & _ & _ & _ & ->).
    cbn. apply List.Forall_forall. intros r Hr.
    apply in_map_iff in Hr as (r0 & <- & _). cbn.
    unfold pd.fillna. destruct (pd.isna (precip_mm_h r0)) eqn:E;
      [reflexivity|exact E].
  - intros ps Hps. unfold _safe_get_param. cbn.
    induction Hps as [|p ps (kv & n & -> & Hn & Hne) _ IH]; cbn; [reflexivity|].
    cbn in Hn. injection Hn as Hn. rewrite Hn, Hne. exact IH.
  - intros v Hv. unfold pd.fillna. rewrite Hv. reflexivity.
Qed.

(** ** The normaliser on an example payload *)

Example smhi_to_df_payload_two :
  smhi_to_df isoparse_seconds CET payload_two = Ok table_two.
Proof. vm_compute. reflexivity. Qed.

Lemma smhi_to_df_sorted_witness :
  smhi_to_df isoparse_seconds CET payload_two = Ok table_two
  /\ instant (time row_12) <= instant (time row_13).
Proof.
  split; [vm_compute; reflexivity|].
  apply (smhi_to_df_sorted isoparse_seconds CET payload_two table_two)
    with (i := 0%nat); vm_compute; reflexivity.
Defined.

Lemma smhi_to_df_precip_not_nan_witness :
  Forall (fun r => pd.isna (precip_mm_h r) = false) (records table_two)
  /\ _safe_get_param (PList [param "t" (PList [PFloat 5])]) "pmean" (PFloat 0)
     = Ok (PFloat 0)
  /\ pd.fillna (PFloat 0) nan = PFloat 0.
Proof.
  destruct (smhi_to_df_precip_not_nan isoparse_seconds CET) as (H1 & H2 & H3).
  split; [|split].
  - apply (H1 payload_two table_two). vm_compute. reflexivity.
  - apply H2. repeat constructor.
    exists [("name", PStr "t"); ("values", PList [PFloat 5])], (PStr "t").
    repeat split; reflexivity.
  - apply H3. vm_compute. reflexivity.
Defined.

(** ** Empty time series *)

Lemma smhi_to_df_no_entries
    (isoparse : string -> option datetime) (STHLM_TZ : Z -> Z) kv :
  Py.lookup kv "timeSeries" = None
  \/ Py.lookup kv "timeSeries" = Some PNone
  \/ Py.lookup kv "timeSeries" = Some (PList []) ->
  smhi_to_df isoparse STHLM_TZ (PDict kv) = Raise (KeyError "time").
Proof.
  intros H. unfold smhi_to_df. cbn [Py.get bind].
  destruct H as [-> | [-> | ->]]; reflexivity.
Qed.

(** C1. On a payload whose timeSeries is absent, null or the empty list
    [smhi_to_df] does not return an empty table: sorting the frame built
    from no row, which has no time column, raises KeyError. *)
Theorem smhi_to_df_empty_raises
    (isoparse : string -> option datetime) (STHLM_TZ : Z -> Z) :
  smhi_to_df isoparse STHLM_TZ (PDict []) = Raise (KeyError "time")
  /\ smhi_to_df isoparse STHLM_TZ (PDict [("timeSeries", PNone)])
     = Raise (KeyError "time")
  /\ smhi_to_df isoparse STHLM_TZ (PDict [("timeSeries", PList [])])
     = Raise (KeyError "time")
  /\ smhi_to_df isoparse STHLM_TZ
       (PDict [("approvedTime", PStr "2025-11-04T10:00:00Z");
               ("timeSeries", PList [])])
     = Raise (KeyError "time").
Proof. repeat split; apply smhi_to_df_no_entries; cbn; auto. Qed.

(** ** Totality of the normaliser *)

Section Totality.

Variable isoparse : string -> option datetime.
Variable STHLM_TZ : Z -> Z.

Lemma safe_get_param_loop_returns ps name default :
  forallb values_well_formed ps = true ->
  returns (_safe_get_param_loop ps name default).
Proof.
  induction ps as [|p ps IH]; cbn; intros H.
  - eexists; reflexivity.
  - apply andb_true_iff in H as [Hp Hps].
    destruct p as [| | | | |?|kv]; try discriminate. cbn [Py.get bind].
    destruct (Py.eq_str _ name); [|exact (IH Hps)].
    cbn in Hp.
    destruct (Py.lookup kv "values") as [v|]; [|eexists; reflexivity].
    destruct v as [| | | | |l|?]; try discriminate; [eexists; reflexivity|].
    destruct l as [|x l]; eexists; reflexivity.
Qed.

Lemma safe_get_param_returns ps name default :
  forallb values_well_formed ps = true ->
  returns (_safe_get_param (PList ps) name default).
Proof. intros H. unfold _safe_get_param. cbn. apply safe_get_param_loop_returns, H. Qed.

(** The conversion of a string that parses: the datetime of the same
    instant in the zone when that is representable, OverflowError
    otherwise. *)
Lemma utc_to_local_parsed s d :
  isoparse s = Some d ->
  _utc_to_local isoparse STHLM_TZ (PStr s)
  = if representable STHLM_TZ d
    then Ok {| wall := parsed_instant d + STHLM_TZ (parsed_instant d);
               tzinfo := Some (STHLM_TZ (parsed_instant d)) |}
    else Raise OverflowError.
Proof.
  intros H. unfold _utc_to_local. rewrite H. cbn [bind].
  assert (Hi : instant match tzinfo d with
                       | Some _ => d
                       | None => replace_tzinfo_utc d
                       end = parsed_instant d).
  { unfold instant, parsed_instant. destruct d as [w [off|]]; cbn; lia. }
  unfold astimezone, representable. rewrite Hi.
  destruct (in_datetime_range (parsed_instant d)); cbn [negb andb]; [|reflexivity].
  destruct (in_datetime_range _); reflexivity.
Qed.

Lemma row_of_item_returns item :
  has_convertible_validTime isoparse STHLM_TZ item = true ->
  parameters_well_formed item = true ->
  returns (row_of_item isoparse STHLM_TZ item).
Proof.
  intros Hv Hp. destruct item as [| | | | |?|kv]; try discriminate.
  cbn in Hv, Hp. unfold row_of_item. cbn [Py.getitem Py.get].
  destruct (Py.lookup kv "validTime") as [vt|]; [|discriminate].
  destruct vt as [| | | |s| |]; try discriminate. cbn [bind].
  destruct (isoparse s) as [d|] eqn:Hd; [|discriminate].
  rewrite (utc_to_local_parsed s d Hd), Hv. cbn [bind].
  assert (Hps : exists ps, match Py.lookup kv "parameters" with
                           | Some x => x | None => PList [] end = PList ps
                           /\ forallb values_well_formed ps = true).
  { destruct (Py.lookup kv "parameters") as [v|]; [|exists []; auto].
    destruct v as [| | | | |ps|?]; try discriminate. exists ps; auto. }
  destruct Hps as (ps & -> & Hps).
  destruct (safe_get_param_returns ps "t" nan Hps) as [? ->].
  destruct (safe_get_param_returns ps "ws" nan Hps) as [? ->].
  destruct (safe_get_param_returns ps "gust" nan Hps) as [? ->].
  destruct (safe_get_param_returns ps "pmean" (PFloat 0) Hps) as [? ->].
  destruct (safe_get_param_returns ps "tcc_mean" nan Hps) as [? ->].
  destruct (safe_get_param_returns ps "msl" nan Hps) as [? ->].
  destruct (safe_get_param_returns ps "r" nan Hps) as [? ->].
  destruct (safe_get_param_returns ps "wd" nan Hps) as [? ->].
  eexists; reflexivity.
Qed.

Lemma rows_of_items_returns items :
  Forall (fun item => has_convertible_validTime isoparse STHLM_TZ item = true
                      /\ parameters_well_formed item = true) items ->
  returns (rows_of_items isoparse STHLM_TZ items).
Proof.
  induction 1 as [|item items [Hv Hp] _ [rows IH]]; cbn.
  - eexists; reflexivity.
  - destruct (row_of_item_returns item Hv Hp) as [row ->]. cbn.
    rewrite IH. eexists; reflexivity.
Qed.

Lemma row_of_item_raises item :
  has_convertible_validTime isoparse STHLM_TZ item = false ->
  raises (row_of_item isoparse STHLM_TZ item).
Proof.
  intros Hv. unfold row_of_item.
  destruct item as [| | | | |?|kv]; try (eexists; reflexivity).
  cbn in Hv. cbn [Py.getitem].
  destruct (Py.lookup kv "validTime") as [vt|]; [|eexists; reflexivity].
  cbn [bind].
  destruct vt as [| | | |s|l|kv']; try (eexists; reflexivity).
  - destruct (isoparse s) as [d|] eqn:Hd.
    + rewrite (utc_to_local_parsed s d Hd), Hv. eexists; reflexivity.
    + unfold _utc_to_local. rewrite Hd. eexists; reflexivity.
  - unfold _utc_to_local. destruct (length l <? 4)%nat; eexists; reflexivity.
  - unfold _utc_to_local. destruct (length kv' <? 4)%nat; eexists; reflexivity.
Qed.

Lemma rows_of_items_raises items :
  Exists (fun item => has_convertible_validTime isoparse STHLM_TZ item = false) items ->
  raises (rows_of_items isoparse STHLM_TZ items).
Proof.
  induction 1 as [item items Hv|item items _ [e IH]]; cbn.
  - destruct (row_of_item_raises item Hv) as [e ->]. eexists; reflexivity.
  - destruct (row_of_item isoparse STHLM_TZ item); cbn; [|eexists; reflexivity].
    rewrite IH. eexists; reflexivity.
Qed.

Lemma rows_of_items_KeyError before ikv after :
  returns (rows_of_items isoparse STHLM_TZ before) ->
  Py.lookup ikv "validTime" = None ->
  rows_of_items isoparse STHLM_TZ (before ++ PDict ikv :: after)
  = Raise (KeyError "validTime").
Proof.
  intros Hb Hk. induction before as [|item before IH]; cbn.
  - unfold row_of_item. cbn. rewrite Hk. reflexivity.
  - destruct Hb as [rows Hb]. cbn in Hb.
    apply bind_Ok in Hb as (row & -> & Hb).
    apply bind_Ok in Hb as (rows' & Hrows' & _). cbn.
    rewrite IH by (eexists; exact Hrows'). reflexivity.
Qed.

Lemma smhi_to_df_items kv item items :
  Py.lookup kv "timeSeries" = Some (PList (item :: items)) ->
  smhi_to_df isoparse STHLM_TZ (PDict kv)
  = let* rows := rows_of_items isoparse STHLM_TZ (item :: items) in
    let* df := pd.sort_values_time (pd.DataFrame_of_rows rows) in
    Ok (if pd.contains "precip_mm_h" df
        then pd.fillna_precip (PFloat 0) df else df).
Proof. intros H. unfold smhi_to_df. cbn [Py.get bind]. rewrite H. reflexivity. Qed.

End Totality.

(** C10, as stated, fails: a parseable validTime in every entry is not
    enough for [smhi_to_df] to return. *)
Lemma validTime_alone_not_sufficient :
  ~ (forall payload,
       forallb (has_parseable_validTime isoparse_seconds) (entries payload) = true ->
       returns (smhi_to_df isoparse_seconds CET payload)).
Proof.
  intros H. destruct (H payload_scalar_values) as [df Hdf].
  - vm_compute. reflexivity.
  - vm_compute in Hdf. discriminate.
Qed.

(** C10, amended. On a payload whose timeSeries is a non-empty list of
    objects, each with a validTime string that parses to a time
    representable in Stockholm time (within the range of [datetime], years
    1 to 9999) and with parameters absent or a list of objects whose
    values are absent, null or a list, [smhi_to_df] returns a table with
    one row per entry. When the list has an entry that is not an object
    with such a validTime string, [smhi_to_df] raises; it raises KeyError
    for validTime at the first object without that key when the entries
    before it are well formed. *)
Theorem smhi_to_df_total_on_well_formed
    (isoparse : string -> option datetime) (STHLM_TZ : Z -> Z) :
  (forall kv items,
     Py.lookup kv "timeSeries" = Some (PList items) ->
     items <> [] ->
     Forall (fun item => has_convertible_validTime isoparse STHLM_TZ item = true
                         /\ parameters_well_formed item = true) items ->
     exists df,
       smhi_to_df isoparse STHLM_TZ (PDict kv) = Ok df
       /\ length (records df) = length items)
  /\ (forall kv items,
        Py.lookup kv "timeSeries" = Some (PList items) ->
        Exists (fun item => has_convertible_validTime isoparse STHLM_TZ item = false) items ->
        raises (smhi_to_df isoparse STHLM_TZ (PDict kv)))
  /\ (forall kv before ikv after,
        Py.lookup kv "timeSeries" = Some (PList (before ++ PDict ikv :: after)) ->
        Forall (fun item => has_convertible_validTime isoparse STHLM_TZ item = true
                            /\ parameters_well_formed item = true) before ->
        Py.lookup ikv "validTime" = None ->
        smhi_to_df isoparse STHLM_TZ (PDict kv) = Raise (KeyError "validTime")).
Proof.
  split; [|split].
  - intros kv items Hts Hne Hwf.
    destruct items as [|item items]; [congruence|].
    rewrite (smhi_to_df_items _ _ _ _ _ Hts).
    destruct (rows_of_items_returns isoparse STHLM_TZ _ Hwf) as [rows Hrows].
    rewrite Hrows. cbn [bind].
    pose proof (rows_of_items_length _ _ _ _ Hrows) as Hlen.
    destruct rows as [|r rows]; [discriminate|].
    eexists. split; [reflexivity|].
    cbn [pd.contains pd.reset_index]. cbn -[pd.sort_by_time].
    rewrite length_map.
    rewrite <- (Permutation_length (sort_by_time_Permutation (r :: rows))).
    exact Hlen.
  - intros kv items Hts Hex.
    destruct items as [|item items]; [inversion Hex|].
    rewrite (smhi_to_df_items _ _ _ _ _ Hts).
    destruct (rows_of_items_raises isoparse STHLM_TZ _ Hex) as [e ->].
    eexists; reflexivity.
  - intros kv before ikv after Hts Hwf Hk.
    destruct (before ++ PDict ikv :: after)%list as [|item items] eqn:E.
    { destruct before; discriminate. }
    rewrite (smhi_to_df_items _ _ _ _ _ Hts). rewrite <- E.
    rewrite (rows_of_items_KeyError isoparse STHLM_TZ before ikv after
               (rows_of_items_returns isoparse STHLM_TZ _ Hwf) Hk).
    reflexivity.
Qed.

(** A validTime at the very end of the range of [datetime] parses, but
    cannot be taken to Stockholm time. *)
Example smhi_to_df_year_9999 :
  forallb (has_parseable_validTime isoparse_seconds) (entries payload_year_9999) = true
  /\ smhi_to_df isoparse_seconds CET payload_year_9999 = Raise OverflowError.
Proof. split; vm_compute; reflexivity. Qed.

Lemma smhi_to_df_total_on_well_formed_witness :
  (exists df,
     smhi_to_df isoparse_seconds CET payload_two = Ok df
     /\ length (records df) = length entries_two)
  /\ raises (smhi_to_df isoparse_seconds CET payload_missing_validTime)
  /\ smhi_to_df isoparse_seconds CET payload_missing_validTime
     = Raise (KeyError "validTime").
Proof.
  destruct (smhi_to_df_total_on_well_formed isoparse_seconds CET) as (H1 & H2 & H3).
  split; [|split].
  - apply (H1 [("approvedTime", PStr "2025-11-04T10:00:00Z");
                ("timeSeries", PList entries_two)] entries_two);
      [reflexivity|discriminate|].
    repeat constructor.
  - apply (H2 [("timeSeries",
                PList [entry "2025-11-04T12:00:00Z" [param "t" (PList [PFloat 5])];
                       PDict [("parameters", PList [])]])]
              [entry "2025-11-04T12:00:00Z" [param "t" (PList [PFloat 5])];
               PDict [("parameters", PList [])]]); [reflexivity|].
    apply Exists_cons_tl, Exists_cons_hd. reflexivity.
  - apply (H3 _ [entry "2025-11-04T12:00:00Z" [param "t" (PList [PFloat 5])]]
              [("parameters", PList [])] []); [reflexivity| |reflexivity].
    repeat constructor.
Defined.

(** ** Current row *)

Lemma lookup_map_Some {A B} (f : A -> B) (l : list A) i y :
  map f l !! i = Some y -> exists x, l !! i = Some x /\ y = f x.
Proof.
  revert i. induction l as [|a l IH]; intros [|i] H; cbn in H; try discriminate.
  - injection H as <-. exists a. auto.
  - apply IH, H.
Qed.

Lemma lookup_map {A B} (f : A -> B) (l : list A) i x :
  l !! i = Some x -> map f l !! i = Some (f x).
Proof.
  revert i. induction l as [|a l IH]; intros [|i] H; cbn in H; try discriminate.
  - injection H as <-. reflexivity.
  - apply IH, H.
Qed.

(** [idxmin_from] continues a scan: [pre] is the part already seen, with
    its first minimum [best] at [best_i]. The index returned holds a
    minimum of the whole list, and everything before it is larger. *)
Lemma idxmin_from_spec (l : list Z) :
  forall (pre : list Z) (best_i : nat) (best : Z),
    pre !! best_i = Some best ->
    (forall j y, pre !! j = Some y -> best <= y) ->
    (forall j y, (j < best_i)%nat -> pre !! j = Some y -> best < y) ->
    exists m,
      (pre ++ l)%list !! pd.idxmin_from best_i best (length pre) l = Some m
      /\ (forall j y, (pre ++ l)%list !! j = Some y -> m <= y)
      /\ (forall j y, (j < pd.idxmin_from best_i best (length pre) l)%nat ->
                      (pre ++ l)%list !! j = Some y -> m < y).
Proof.
  induction l as [|x l IH]; intros pre best_i best Hb Hmin Hfirst.
  - cbn. rewrite app_nil_r. exists best. auto.
  - cbn [pd.idxmin_from].
    replace (S (length pre)) with (length (pre ++ [x])%list)
      by (rewrite length_app; cbn; lia).
    replace (pre ++ x :: l)%list with ((pre ++ [x]) ++ l)%list
      by (rewrite <- app_assoc; reflexivity).
    destruct (Z.ltb_spec x best) as [Hlt|Hge].
    + apply IH.
      * apply list_lookup_middle. reflexivity.
      * intros j y Hj. apply lookup_snoc_Some in Hj as [[_ Hj]|[_ <-]]; [|lia].
        specialize (Hmin _ _ Hj). lia.
      * intros j y Hlen Hj. apply lookup_snoc_Some in Hj as [[_ Hj]|[-> _]]; [|lia].
        specialize (Hmin _ _ Hj). lia.
    + apply IH.
      * apply lookup_app_l_Some. exact Hb.
      * intros j y Hj. apply lookup_snoc_Some in Hj as [[_ Hj]|[_ <-]]; [|lia].
        exact (Hmin _ _ Hj).
      * intros j y Hlt Hj. apply lookup_snoc_Some in Hj as [[_ Hj]|[-> _]].
        -- exact (Hfirst _ _ Hlt Hj).
        -- apply lookup_lt_Some in Hb. lia.
Qed.

Lemma idxmin_spec (l : list Z) :
  l <> [] ->
  exists i m,
    pd.idxmin l = Ok i
    /\ l !! i = Some m
    /\ (forall j y, l !! j = Some y -> m <= y)
    /\ (forall j y, (j < i)%nat -> l !! j = Some y -> m < y).
Proof.
  destruct l as [|x l]; [congruence|]. intros _.
  destruct (idxmin_from_spec l [x] 0%nat x) as (m & H1 & H2 & H3).
  - reflexivity.
  - intros j y Hj. apply list_lookup_singleton_Some in Hj as [_ <-]. lia.
  - intros j y Hj. lia.
  - exists (pd.idxmin_from 0 x 1 l), m. cbn in *. auto.
Qed.

(** C3. [pick_current_row] raises on a table without rows. On a table with
    rows it returns a row whose time is at least as close to [now] as every
    row's, and strictly closer than every row's before it, so of two rows
    equally close the one with the smaller index is returned. On a table
    of one row it returns that row, whatever [now] is. *)
Theorem pick_current_row_nearest (now : datetime) (df : DataFrame) :
  (records df = [] -> raises (pick_current_row now df))
  /\ (pd.contains "time" df = true ->
      records df <> [] ->
      exists i r,
        pick_current_row now df = Ok r
        /\ records df !! i = Some r
        /\ (forall j r', records df !! j = Some r' ->
                         distance now r <= distance now r')
        /\ (forall j r', (j < i)%nat -> records df !! j = Some r' ->
                         distance now r < distance now r'))
  /\ (forall r,
        pd.contains "time" df = true ->
        records df = [r] ->
        pick_current_row now df = Ok r).
Proof.
  split; [|split].
  - intros Hempty. unfold pick_current_row, pd.col_time.
    destruct (pd.contains "time" df); [|eexists; reflexivity].
    rewrite Hempty. eexists; reflexivity.
  - intros Hcol Hne. unfold pick_current_row, pd.col_time.
    rewrite Hcol. cbn [bind]. rewrite map_map.
    change (fun x => Z.abs (instant (time x) - instant now)) with (distance now).
    destruct (idxmin_spec (map (distance now) (records df)))
      as (i & m & -> & Hi & Hmin & Hfirst).
    { destruct (records df); [congruence|discriminate]. }
    cbn [bind]. unfold pd.loc.
    apply lookup_map_Some in Hi as (r & Hr & ->).
    rewrite Hr. exists i, r. repeat split; [exact Hr| |].
    + intros j r' Hj. apply (Hmin j). apply lookup_map, Hj.
    + intros j r' Hlt Hj. apply (Hfirst j); [exact Hlt|]. apply lookup_map, Hj.
  - intros r Hcol Hone. unfold pick_current_row, pd.col_time, pd.loc.
    rewrite Hcol, Hone. reflexivity.
Qed.

Example pick_current_row_closer :
  pick_current_row (at_minutes 0) table_near = Ok (row_at 5 6).
Proof. vm_compute. reflexivity. Qed.

Example pick_current_row_tie :
  pick_current_row (at_minutes 30) table_two = Ok row_12
  /\ distance (at_minutes 30) row_12 = distance (at_minutes 30) row_13.
Proof. split; vm_compute; reflexivity. Qed.

Example pick_current_row_empty :
  pick_current_row (at_minutes 0) table_no_rows = Raise ValueError
  /\ pick_current_row (at_minutes 0) (pd.DataFrame_of_rows []) = Raise (KeyError "time").
Proof. split; reflexivity. Qed.

Lemma pick_current_row_nearest_witness :
  raises (pick_current_row (at_minutes 0) table_no_rows)
  /\ (exists i r,
        pick_current_row (at_minutes 30) table_two = Ok r
        /\ records table_two !! i = Some r
        /\ (forall j r', records table_two !! j = Some r' ->
                         distance (at_minutes 30) r <= distance (at_minutes 30) r')
        /\ (forall j r', (j < i)%nat -> records table_two !! j = Some r' ->
                         distance (at_minutes 30) r < distance (at_minutes 30) r'))
  /\ pick_current_row (at_minutes 999)
       {| columns := row_keys; records := [row_12] |} = Ok row_12.
Proof.
  split; [|split].
  - apply (pick_current_row_nearest (at_minutes 0) table_no_rows). reflexivity.
  - apply (pick_current_row_nearest (at_minutes 30) table_two);
      [reflexivity|discriminate].
  - apply (pick_current_row_nearest (at_minutes 999)
             {| columns := row_keys; records := [row_12] |});
      reflexivity.
Defined.

(** ** Forecast window *)

Lemma in_windowb_spec now hours r :
  in_windowb now hours r = true <-> in_window now hours r.
Proof.
  unfold in_windowb, in_window, Timedelta_hours.
  rewrite andb_true_iff, !Z.leb_le. reflexivity.
Qed.

Lemma filter_sublist {A} (f : A -> bool) (l : list A) :
  sublist (List.filter f l) l.
Proof.
  induction l as [|x l IH]; cbn; [constructor|].
  destruct (f x); constructor; exact IH.
Qed.

Lemma filter_greatest_sublist {A} (f : A -> bool) (l k : list A) :
  sublist k l -> Forall (fun x => f x = true) k -> sublist k (List.filter f l).
Proof.
  induction 1 as [|x k l Hs IH|x k l Hs IH]; intros Hk; cbn.
  - constructor.
  - inversion Hk as [|? ? Hx Hk']; subst. rewrite Hx.
    constructor. apply IH, Hk'.
  - destruct (f x); [constructor|]; apply IH, Hk.
Qed.

(** C5. On a frame with a time column the window is the rows, in table
    order, whose time lies in the closed interval from [now] to [now] plus
    [hours_ahead] hours: it is a sub-sequence of the table, all its rows
    lie in the interval, and every sub-sequence of the table lying in the
    interval is a sub-sequence of it. So a row earlier than [now] or later
    than the upper bound is out, and a row exactly on a bound is in. *)
Theorem df_window_closed_interval (now : datetime) (hours_ahead : Z) (df : DataFrame) :
  pd.contains "time" df = true ->
  exists w,
    df_window now hours_ahead df = Ok w
    /\ columns w = columns df
    /\ sublist (records w) (records df)
    /\ Forall (in_window now hours_ahead) (records w)
    /\ (forall k, sublist k (records df) ->
                  Forall (in_window now hours_ahead) k ->
                  sublist k (records w))
    /\ (forall r, In r (records w)
                  <-> In r (records df)
                      /\ ~ instant (time r) < instant now
                      /\ ~ instant (time r) > instant now + hours_ahead * 3600000000)
    /\ (forall r, In r (records df) -> 0 <= hours_ahead ->
                  instant (time r) = instant now
                  \/ instant (time r) = instant now + hours_ahead * 3600000000 ->
                  In r (records w)).
Proof.
  intros Hcol. unfold df_window, pd.col_time. rewrite Hcol. cbn [bind].
  eexists. split; [reflexivity|]. cbn [columns records].
  change (fun r => (instant now <=? instant (time r))
                   && (instant (time r) <=? instant now + Timedelta_hours hours_ahead))
    with (in_windowb now hours_ahead).
  assert (Hin : forall r, In r (List.filter (in_windowb now hours_ahead) (records df))
                          <-> In r (records df) /\ in_window now hours_ahead r).
  { intros r. rewrite filter_In, in_windowb_spec. reflexivity. }
  split; [reflexivity|]. split; [apply filter_sublist|]. split; [|split; [|split]].
  - apply List.Forall_forall. intros r Hr. apply Hin in Hr. tauto.
  - intros k Hk Hall. apply filter_greatest_sublist; [exact Hk|].
    eapply Forall_impl; [exact Hall|]. intros r Hr. apply in_windowb_spec, Hr.
  - intros r. rewrite Hin. unfold in_window. intuition lia.
  - intros r Hr Hh Hb. apply Hin. split; [exact Hr|]. unfold in_window. lia.
Qed.

Example df_window_may_be_empty :
  df_window (at_minutes 6) 48 table_near = Ok table_no_rows.
Proof. vm_compute. reflexivity. Qed.

Example df_window_bounds_included :
  df_window (at_minutes 0) 48 table_bounds
  = Ok {| columns := row_keys; records := [row_at 0 2; row_at 2880 3] |}.
Proof. vm_compute. reflexivity. Qed.

Lemma df_window_closed_interval_witness :
  exists w,
    df_window (at_minutes 0) 48 table_bounds = Ok w
    /\ columns w = columns table_bounds
    /\ sublist (records w) (records table_bounds)
    /\ Forall (in_window (at_minutes 0) 48) (records w)
    /\ (forall k, sublist k (records table_bounds) ->
                  Forall (in_window (at_minutes 0) 48) k ->
                  sublist k (records w))
    /\ (forall r, In r (records w)
                  <-> In r (records table_bounds)
                      /\ ~ instant (time r) < instant (at_minutes 0)
                      /\ ~ instant (time r)
                           > instant (at_minutes 0) + 48 * 3600000000)
    /\ (forall r, In r (records table_bounds) -> 0 <= 48 ->
                  instant (time r) = instant (at_minutes 0)
                  \/ instant (time r) = instant (at_minutes 0) + 48 * 3600000000 ->
                  In r (records w)).
Proof.
  apply (df_window_closed_interval (at_minutes 0) 48 table_bounds).
  reflexivity.
Defined.

(** * Further properties *)

(** ** Parameter lookup *)

Lemma safe_get_param_loop_skip pre name default rest :
  forallb (other_name name) pre = true ->
  _safe_get_param_loop (pre ++ rest) name default
  = _safe_get_param_loop rest name default.
Proof.
  induction pre as [|p pre IH]; cbn; intros H; [reflexivity|].
  apply andb_true_iff in H as [Hp Hpre].
  destruct p as [| | | | |?|kv]; try discriminate. cbn in Hp |- *.
  destruct (Py.lookup kv "name") as [n|]; cbn.
  - apply negb_true_iff in Hp. rewrite Hp. apply IH, Hpre.
  - apply IH, Hpre.
Qed.

(** The first parameter carrying the name decides: when the objects before
    it have other names and its values are a non-empty list, the list's
    first element is returned, whatever follows it in the list (even
    entries that are not objects, or a second parameter of the same
    name). *)
Theorem safe_get_param_first_match pre kv name v vs post default :
  forallb (other_name name) pre = true ->
  Py.lookup kv "name" = Some (PStr name) ->
  Py.lookup kv "values" = Some (PList (v :: vs)) ->
  _safe_get_param (PList (pre ++ PDict kv :: post)) name default = Ok v.
Proof.
  intros Hpre Hn Hv. unfold _safe_get_param. cbn [Py.iter bind].
  rewrite safe_get_param_loop_skip by exact Hpre.
  cbn. rewrite Hn. cbn. rewrite String.eqb_refl, Hv. reflexivity.
Qed.

Lemma safe_get_param_first_match_witness :
  _safe_get_param
    (PList ([param "t" (PList [PFloat 5])]
            ++ PDict [("name", PStr "ws"); ("values", PList [PFloat 3; PFloat 9])]
            :: [PInt 7; param "ws" (PList [PFloat 8])]))
    "ws" nan
  = Ok (PFloat 3).
Proof.
  apply (safe_get_param_first_match
           [param "t" (PList [PFloat 5])]
           [("name", PStr "ws"); ("values", PList [PFloat 3; PFloat 9])]
           "ws" (PFloat 3) [PFloat 9]
           [PInt 7; param "ws" (PList [PFloat 8])] nan); reflexivity.
Defined.

(** The default is returned when no parameter carries the name, and also
    when the first one that does has its values absent, null or empty: a
    later parameter of the same name is not consulted. *)
Theorem safe_get_param_default pre name default :
  forallb (other_name name) pre = true ->
  _safe_get_param (PList pre) name default = Ok default
  /\ (forall kv post,
        Py.lookup kv "name" = Some (PStr name) ->
        Py.lookup kv "values" = None
        \/ Py.lookup kv "values" = Some PNone
        \/ Py.lookup kv "values" = Some (PList []) ->
        _safe_get_param (PList (pre ++ PDict kv :: post)) name default = Ok default).
Proof.
  intros Hpre. split.
  - unfold _safe_get_param. cbn [Py.iter bind].
    rewrite <- (app_nil_r pre). rewrite safe_get_param_loop_skip by exact Hpre.
    reflexivity.
  - intros kv post Hn Hv. unfold _safe_get_param. cbn [Py.iter bind].
    rewrite safe_get_param_loop_skip by exact Hpre.
    cbn. rewrite Hn. cbn. rewrite String.eqb_refl.
    destruct Hv as [-> | [-> | ->]]; reflexivity.
Qed.

Lemma safe_get_param_default_witness :
  _safe_get_param (PList [param "t" (PList [PFloat 5])]) "ws" nan = Ok nan
  /\ _safe_get_param
       (PList ([param "t" (PList [PFloat 5])]
               ++ PDict [("name", PStr "ws"); ("values", PList [])]
               :: [param "ws" (PList [PFloat 8])]))
       "ws" nan
     = Ok nan.
Proof.
  destruct (safe_get_param_default [param "t" (PList [PFloat 5])] "ws" nan eq_refl)
    as [H1 H2].
  split; [exact H1|].
  apply (H2 [("name", PStr "ws"); ("values", PList [])]
            [param "ws" (PList [PFloat 8])]); [reflexivity|].
  right; right; reflexivity.
Defined.

(** A parameter list that is not iterable (null, a number, a boolean)
    makes the lookup raise TypeError, and an element that is not an
    object, met before the name is found, makes it raise AttributeError. *)
Theorem safe_get_param_malformed name default :
  (forall params,
     Py.iter params = Raise TypeError ->
     _safe_get_param params name default = Raise TypeError)
  /\ (forall pre p post,
        forallb (other_name name) pre = true ->
        (forall kv, p <> PDict kv) ->
        _safe_get_param (PList (pre ++ p :: post)) name default
        = Raise AttributeError).
Proof.
  split.
  - intros params H. unfold _safe_get_param. rewrite H. reflexivity.
  - intros pre p post Hpre Hp. unfold _safe_get_param. cbn [Py.iter bind].
    rewrite safe_get_param_loop_skip by exact Hpre.
    destruct p; try reflexivity. exfalso. exact (Hp _ eq_refl).
Qed.

Lemma safe_get_param_malformed_witness :
  _safe_get_param PNone "t" nan = Raise TypeError
  /\ _safe_get_param (PList ([param "ws" (PList [PFloat 3])] ++ PInt 7 :: [])) "t" nan
     = Raise AttributeError.
Proof.
  destruct (safe_get_param_malformed "t" nan) as [H1 H2].
  split.
  - apply H1. reflexivity.
  - apply H2; [reflexivity|]. intros kv. discriminate.
Defined.

(** ** Time conversion *)



(** ** Shape of the normalised table *)

Lemma rows_of_items_built isoparse STHLM_TZ items rows :
  rows_of_items isoparse STHLM_TZ items = Ok rows ->
  rows = map (row_built isoparse STHLM_TZ) items
  /\ Forall (fun item => returns (row_of_item isoparse STHLM_TZ item)) items.
Proof.
  revert rows. induction items as [|item items IH]; intros rows H;
    cbn [rows_of_items] in H.
  - injection H as <-. split; [reflexivity|constructor].
  - apply bind_Ok in H as (row & Hrow & H).
    apply bind_Ok in H as (rows' & Hrows' & H). injection H as <-.
    destruct (IH _ Hrows') as [-> Hall]. split.
    + cbn [map]. f_equal. unfold row_built. rewrite Hrow. reflexivity.
    + constructor; [eexists; exact Hrow|exact Hall].
Qed.

Lemma sort_by_time_length l : length (pd.sort_by_time l) = length l.
Proof. symmetry. apply Permutation_length, sort_by_time_Permutation. Qed.

(** A table that [smhi_to_df] returns is never empty and always has the
    nine columns, so the test [df.empty] made by the caller on line 166
    cannot succeed. *)
Theorem smhi_to_df_never_empty
    (isoparse : string -> option datetime) (STHLM_TZ : Z -> Z) payload df :
  smhi_to_df isoparse STHLM_TZ payload = Ok df ->
  records df <> [] /\ columns df = row_keys
  /\ length (records df) = length (entries payload).
Proof.
  intros H. apply smhi_to_df_Ok in H as (ts0 & items & rows & H1 & H2 & H3 & Hne & ->).
  cbn -[pd.sort_by_time]. rewrite length_map, sort_by_time_length.
  unfold entries. rewrite H1, H2.
  rewrite (rows_of_items_length _ _ _ _ H3).
  split; [|auto].
  intros E. apply (f_equal (@length _)) in E.
  rewrite length_map, sort_by_time_length in E.
  destruct rows; [congruence|discriminate].
Qed.

Lemma smhi_to_df_never_empty_witness :
  records table_two <> [] /\ columns table_two = row_keys
  /\ length (records table_two) = length (entries payload_two).
Proof.
  apply (smhi_to_df_never_empty isoparse_seconds CET payload_two table_two).
  vm_compute. reflexivity.
Defined.

Lemma row_of_item_time isoparse STHLM_TZ item r :
  row_of_item isoparse STHLM_TZ item = Ok r ->
  instant (time r) = entry_instant isoparse item
  /\ tzinfo (time r) = Some (STHLM_TZ (instant (time r)))
  /\ in_datetime_range (wall (time r)) = true.
Proof.
  unfold row_of_item. intros H.
  apply bind_Ok in H as (vt & Hvt & H).
  apply bind_Ok in H as (valid_time & Hlocal & H).
  apply bind_Ok in H as (params & _ & H).
  do 8 (apply bind_Ok in H as (? & _ & H)).
  injection H as <-. cbn [time].
  destruct item as [| | | | |?|kv]; try discriminate. cbn in Hvt |- *.
  destruct (Py.lookup kv "validTime") as [v|]; [|discriminate].
  injection Hvt as ->.
  destruct vt as [| | | |s|l|kv']; try discriminate.
  - destruct (isoparse s) as [d|] eqn:Hd.
    + rewrite (utc_to_local_parsed _ _ _ _ Hd) in Hlocal.
      destruct (representable STHLM_TZ d) eqn:Hr; [|discriminate].
      injection Hlocal as <-. unfold instant. cbn.
      unfold representable in Hr. apply andb_true_iff in Hr as [_ Hr].
      replace (parsed_instant d + STHLM_TZ (parsed_instant d)
               - STHLM_TZ (parsed_instant d)) with (parsed_instant d) by lia.
      auto.
    + unfold _utc_to_local in Hlocal. rewrite Hd in Hlocal. discriminate.
  - unfold _utc_to_local in Hlocal. destruct (length l <? 4)%nat; discriminate.
  - unfold _utc_to_local in Hlocal. destruct (length kv' <? 4)%nat; discriminate.
Qed.

(** The times of the returned table are, up to order, the instants the
    validTime strings of the entries denote: the conversion to Stockholm
    time and the sort move no time. Each row's time carries the Stockholm
    offset in force at its instant. *)
Theorem smhi_to_df_times_from_entries
    (isoparse : string -> option datetime) (STHLM_TZ : Z -> Z) payload df :
  smhi_to_df isoparse STHLM_TZ payload = Ok df ->
  Permutation (map (entry_instant isoparse) (entries payload))
              (map (fun r => instant (time r)) (records df))
  /\ Forall (fun r => tzinfo (time r) = Some (STHLM_TZ (instant (time r))))
            (records df).
Proof.
  intros H. apply smhi_to_df_Ok in H as (ts0 & items & rows & H1 & H2 & H3 & Hne & ->).
  unfold entries. rewrite H1, H2.
  destruct (rows_of_items_built _ _ _ _ H3) as [-> Hall].
  assert (Hrow : forall item, In item items ->
            instant (time (row_built isoparse STHLM_TZ item))
            = entry_instant isoparse item
            /\ tzinfo (time (row_built isoparse STHLM_TZ item))
               = Some (STHLM_TZ (instant (time (row_built isoparse STHLM_TZ item))))).
  { intros item Hin. rewrite List.Forall_forall in Hall.
    destruct (Hall item Hin) as [r Hr]. unfold row_built. rewrite Hr.
    destruct (row_of_item_time _ _ _ _ Hr) as (A & B & _). auto. }
  cbn -[pd.sort_by_time]. rewrite map_map. cbn [time]. split.
  - rewrite <- (sort_by_time_Permutation (map (row_built isoparse STHLM_TZ) items)).
    rewrite map_map. erewrite map_ext_in; [reflexivity|].
    intros item Hin. symmetry. apply Hrow, Hin.
  - apply List.Forall_forall. intros r Hr.
    apply in_map_iff in Hr as (r0 & <- & Hr0). cbn [time].
    apply (Permutation_in _ (Permutation_sym (sort_by_time_Permutation _))) in Hr0.
    apply in_map_iff in Hr0 as (item & <- & Hin). apply Hrow, Hin.
Qed.

Lemma smhi_to_df_times_from_entries_witness :
  Permutation (map (entry_instant isoparse_seconds) (entries payload_two))
              (map (fun r => instant (time r)) (records table_two))
  /\ Forall (fun r => tzinfo (time r) = Some (CET (instant (time r))))
            (records table_two).
Proof.
  apply (smhi_to_df_times_from_entries isoparse_seconds CET payload_two table_two).
  vm_compute. reflexivity.
Defined.

(** ** Independence of the order of the entries *)

Lemma NoDup_map_inj {A B} (f : A -> B) (l : list A) x y :
  List.NoDup (map f l) -> In x l -> In y l -> f x = f y -> x = y.
Proof.
  induction l as [|a l IH]; cbn; intros Hnd Hx Hy Hf; [contradiction|].
  inversion Hnd as [|? ? Hna Hnd']; subst.
  destruct Hx as [->|Hx], Hy as [->|Hy].
  - reflexivity.
  - exfalso. apply Hna. rewrite Hf. apply in_map, Hy.
  - exfalso. apply Hna. rewrite <- Hf. apply in_map, Hx.
  - apply IH; assumption.
Qed.

Lemma Sorted_time_le_head (x y : Row) l :
  Sorted time_le (x :: l) -> In y l -> time_le x y.
Proof.
  intros Hs Hy.
  apply Sorted_StronglySorted in Hs.
  - inversion Hs as [|? ? _ Hall]; subst.
    rewrite List.Forall_forall in Hall. apply Hall, Hy.
  - intros a b c Hab Hbc. unfold time_le in *. lia.
Qed.

(** Two lists of rows sorted by time, one a reordering of the other, with
    no time occurring twice, are the same list. *)
Lemma Sorted_Permutation_unique (l1 l2 : list Row) :
  Sorted time_le l1 -> Sorted time_le l2 -> Permutation l1 l2 ->
  List.NoDup (map (fun r => instant (time r)) l1) -> l1 = l2.
Proof.
  revert l2. induction l1 as [|a l1 IH]; intros l2 H1 H2 Hp Hnd.
  - apply Permutation_nil in Hp. congruence.
  - destruct l2 as [|b l2].
    { apply Permutation_sym, Permutation_nil in Hp. discriminate. }
    assert (Hab : a = b).
    { assert (Ha : In a (b :: l2)) by (eapply Permutation_in; [exact Hp|left; reflexivity]).
      assert (Hb : In b (a :: l1))
        by (eapply Permutation_in; [symmetry; exact Hp|left; reflexivity]).
      apply (NoDup_map_inj (fun r => instant (time r)) (a :: l1));
        [exact Hnd|left; reflexivity|exact Hb|].
      destruct Ha as [<-|Ha]; [reflexivity|].
      destruct Hb as [->|Hb]; [reflexivity|].
      pose proof (Sorted_time_le_head _ _ _ H1 Hb).
      pose proof (Sorted_time_le_head _ _ _ H2 Ha).
      unfold time_le in *. lia. }
    subst b. f_equal. apply IH.
    + inversion H1; assumption.
    + inversion H2; assumption.
    + eapply Permutation_cons_inv. exact Hp.
    + inversion Hnd; assumption.
Qed.

(** Two payloads whose time series hold the same entries in a different
    order, no two entries being for the same instant, are normalised to
    the same table. *)
Theorem smhi_to_df_order_independent
    (isoparse : string -> option datetime) (STHLM_TZ : Z -> Z) p1 p2 df1 df2 :
  Permutation (entries p1) (entries p2) ->
  List.NoDup (map (fun item => instant (time (row_built isoparse STHLM_TZ item)))
                  (entries p1)) ->
  smhi_to_df isoparse STHLM_TZ p1 = Ok df1 ->
  smhi_to_df isoparse STHLM_TZ p2 = Ok df2 ->
  df1 = df2.
Proof.
  intros Hp Hnd H1 H2.
  apply smhi_to_df_Ok in H1 as (ts1 & items1 & rows1 & A1 & B1 & C1 & _ & ->).
  apply smhi_to_df_Ok in H2 as (ts2 & items2 & rows2 & A2 & B2 & C2 & _ & ->).
  unfold entries in Hp, Hnd. rewrite A1, B1 in Hp, Hnd. rewrite A2, B2 in Hp.
  apply rows_of_items_built in C1 as [-> _].
  apply rows_of_items_built in C2 as [-> _].
  f_equal. f_equal.
  apply Sorted_Permutation_unique.
  - apply sort_by_time_Sorted.
  - apply sort_by_time_Sorted.
  - rewrite <- !sort_by_time_Permutation. apply Permutation_map, Hp.
  - eapply Permutation_NoDup; [|exact Hnd].
    rewrite <- (map_map (row_built isoparse STHLM_TZ) (fun r => instant (time r))).
    apply Permutation_map. rewrite <- sort_by_time_Permutation. reflexivity.
Qed.

Lemma smhi_to_df_order_independent_witness :
  smhi_to_df isoparse_seconds CET payload_two_swapped = Ok table_two
  /\ table_two = {| columns := row_keys; records := [row_12; row_13] |}.
Proof.
  split; [vm_compute; reflexivity|].
  apply (smhi_to_df_order_independent isoparse_seconds CET
           payload_two payload_two_swapped).
  - apply perm_swap.
  - vm_compute. repeat constructor; cbn; intuition discriminate.
  - vm_compute. reflexivity.
  - vm_compute. reflexivity.
Defined.

(** ** The selectors on a normalised table *)

Lemma smhi_to_df_time_sorted isoparse STHLM_TZ payload df :
  smhi_to_df isoparse STHLM_TZ payload = Ok df ->
  pd.contains "time" df = true /\ records df <> [] /\ Sorted time_le (records df).
Proof.
  intros H. apply smhi_to_df_Ok in H as (_ & _ & rows & _ & _ & _ & Hne & ->).
  split; [reflexivity|]. split.
  - cbn -[pd.sort_by_time]. intros E. apply (f_equal (@length _)) in E.
    rewrite length_map, sort_by_time_length in E.
    destruct rows; [congruence|discriminate].
  - eapply Sorted_map_time; [|apply (sort_by_time_Sorted rows)].
    symmetry.
    apply (fillna_precip_time (PFloat 0)
             {| columns := row_keys; records := pd.sort_by_time rows |}).
Qed.

Lemma pick_current_row_min now df :
  pd.contains "time" df = true ->
  records df <> [] ->
  exists i r,
    pick_current_row now df = Ok r
    /\ records df !! i = Some r
    /\ (forall j r', records df !! j = Some r' -> distance now r <= distance now r')
    /\ (forall j r', (j < i)%nat -> records df !! j = Some r' ->
                     distance now r < distance now r').
Proof.
  intros Hcol Hne. unfold pick_current_row, pd.col_time.
  rewrite Hcol. cbn [bind]. rewrite map_map.
  change (fun x => Z.abs (instant (time x) - instant now)) with (distance now).
  destruct (idxmin_spec (map (distance now) (records df)))
    as (i & m & -> & Hi & Hmin & Hfirst).
  { destruct (records df); [congruence|discriminate]. }
  cbn [bind]. unfold pd.loc.
  apply lookup_map_Some in Hi as (r & Hr & ->).
  rewrite Hr. exists i, r. repeat split; [exact Hr| |].
  - intros j r' Hj. apply (Hmin j). apply lookup_map, Hj.
  - intros j r' Hlt Hj. apply (Hfirst j); [exact Hlt|]. apply lookup_map, Hj.
Qed.

(** On every table that [smhi_to_df] returns, [pick_current_row] returns
    one of its rows, whatever the clock says. *)
Theorem pick_current_row_after_normalise
    (isoparse : string -> option datetime) (STHLM_TZ : Z -> Z) payload df now :
  smhi_to_df isoparse STHLM_TZ payload = Ok df ->
  exists r, pick_current_row now df = Ok r /\ In r (records df).
Proof.
  intros H. apply smhi_to_df_time_sorted in H as (Hcol & Hne & _).
  destruct (pick_current_row_min now df Hcol Hne) as (i & r & Hr & Hi & _).
  exists r. split; [exact Hr|].
  apply list_elem_of_In. eapply list_elem_of_lookup_2. exact Hi.
Qed.

Lemma pick_current_row_after_normalise_witness :
  exists r, pick_current_row (at_minutes 30) table_two = Ok r
            /\ In r (records table_two).
Proof.
  apply (pick_current_row_after_normalise isoparse_seconds CET payload_two).
  vm_compute. reflexivity.
Defined.

(** When some row is for exactly the instant [now], the row returned is
    for that instant. *)
Theorem pick_current_row_exact now df r0 :
  pd.contains "time" df = true ->
  In r0 (records df) ->
  instant (time r0) = instant now ->
  exists r, pick_current_row now df = Ok r /\ instant (time r) = instant now.
Proof.
  intros Hcol Hin Hnow.
  destruct (pick_current_row_min now df Hcol) as (i & r & Hr & _ & Hmin & _).
  { intros E. rewrite E in Hin. exact Hin. }
  exists r. split; [exact Hr|].
  apply list_elem_of_In, list_elem_of_lookup in Hin as [j Hj].
  specialize (Hmin _ _ Hj). unfold distance in Hmin. lia.
Qed.

Lemma pick_current_row_exact_witness :
  exists r, pick_current_row (at_minutes 60) table_two = Ok r
            /\ instant (time r) = instant (at_minutes 60).
Proof.
  apply (pick_current_row_exact (at_minutes 60) table_two row_13).
  - reflexivity.
  - right; left; reflexivity.
  - reflexivity.
Defined.

(** On a table sorted by time, a clock that has not yet reached the first
    row selects the first row, and a clock past every row selects a row
    with the latest time. *)
Theorem pick_current_row_outside now df r0 rest :
  pd.contains "time" df = true ->
  records df = r0 :: rest ->
  Sorted time_le (records df) ->
  (instant now <= instant (time r0) -> pick_current_row now df = Ok r0)
  /\ ((forall r', In r' (records df) -> instant (time r') <= instant now) ->
      exists r, pick_current_row now df = Ok r
                /\ forall r', In r' (records df) ->
                              instant (time r') <= instant (time r)).
Proof.
  intros Hcol Hrec Hs.
  destruct (pick_current_row_min now df Hcol) as (i & r & Hr & Hi & Hmin & Hfirst).
  { rewrite Hrec. discriminate. }
  split.
  - intros Hnow. destruct i as [|i].
    + rewrite Hrec in Hi. cbn in Hi. injection Hi as <-. exact Hr.
    + exfalso.
      assert (H0 : records df !! 0%nat = Some r0) by (rewrite Hrec; reflexivity).
      specialize (Hfirst 0%nat r0 ltac:(lia) H0).
      assert (Hle : time_le r0 r).
      { rewrite Hrec in Hs, Hi. cbn in Hi.
        eapply Sorted_time_le_head; [exact Hs|].
        apply list_elem_of_In. eapply list_elem_of_lookup_2. exact Hi. }
      unfold distance, time_le in *. lia.
  - intros Hpast. exists r. split; [exact Hr|].
    intros r' Hr'.
    assert (Hrin : In r (records df)).
    { apply list_elem_of_In. eapply list_elem_of_lookup_2. exact Hi. }
    pose proof (Hpast _ Hr') as P1. pose proof (Hpast _ Hrin) as P2.
    apply list_elem_of_In, list_elem_of_lookup in Hr' as [j Hj].
    specialize (Hmin _ _ Hj). unfold distance in Hmin. lia.
Qed.

Lemma pick_current_row_outside_witness :
  pick_current_row (at_minutes (-90)) table_two = Ok row_12
  /\ exists r, pick_current_row (at_minutes 600) table_two = Ok r
               /\ forall r', In r' (records table_two) ->
                             instant (time r') <= instant (time r).
Proof.
  split.
  - apply (pick_current_row_outside (at_minutes (-90)) table_two row_12 [row_13]);
      [reflexivity|reflexivity| |vm_compute; discriminate].
    repeat constructor. vm_compute. discriminate.
  - apply (pick_current_row_outside (at_minutes 600) table_two row_12 [row_13]);
      [reflexivity|reflexivity| |].
    + repeat constructor. vm_compute. discriminate.
    + intros r' [<-|[<-|[]]]; vm_compute; discriminate.
Defined.

(** ** The window on a sorted table *)

Lemma df_window_records now hours df w :
  df_window now hours df = Ok w ->
  pd.contains "time" df = true
  /\ columns w = columns df
  /\ records w = List.filter (in_windowb now hours) (records df).
Proof.
  unfold df_window, pd.col_time.
  destruct (pd.contains "time" df); [|discriminate]. cbn [bind].
  intros [= <-]. auto.
Qed.

Lemma filter_none {A} (f : A -> bool) (l : list A) :
  Forall (fun x => f x = false) l -> List.filter f l = [].
Proof.
  induction 1 as [|x l Hx _ IH]; cbn; [reflexivity|]. rewrite Hx. exact IH.
Qed.

(** In a list sorted by time the rows of a window are next to each other:
    before them come only rows earlier than [now], after them only rows
    later than the upper bound. *)
Lemma window_contiguous now hours (l : list Row) :
  Sorted time_le l ->
  exists pre post,
    l = (pre ++ List.filter (in_windowb now hours) l ++ post)%list
    /\ Forall (fun r => instant (time r) < instant now) pre
    /\ Forall (fun r => instant now + Timedelta_hours hours < instant (time r)) post.
Proof.
  induction l as [|x l IH]; intros Hs.
  - exists [], []. repeat split; constructor.
  - assert (Hs' : Sorted time_le l) by (inversion Hs; assumption).
    destruct (IH Hs') as (pre & post & Hl & Hpre & Hpost).
    assert (Hx : forall y, In y l -> instant (time x) <= instant (time y)).
    { intros y Hy. exact (Sorted_time_le_head _ _ _ Hs Hy). }
    cbn [List.filter]. unfold in_windowb at 1.
    destruct (Z.leb_spec (instant now) (instant (time x))) as [Hlo|Hlo]; cbn [andb].
    + assert (Hnil : pre = []).
      { destruct pre as [|p pre]; [reflexivity|]. exfalso.
        inversion Hpre as [|? ? Hp _]; subst.
        specialize (Hx p). rewrite Hl in Hx.
        specialize (Hx ltac:(left; reflexivity)). lia. }
      subst pre. cbn [app] in Hl.
      destruct (Z.leb_spec (instant (time x)) (instant now + Timedelta_hours hours))
        as [Hhi|Hhi].
      * exists [], post. cbn [app]. rewrite <- Hl. repeat split; [constructor|exact Hpost].
      * exists [], (x :: l). cbn [app].
        assert (Hall : Forall (fun r => in_windowb now hours r = false) l).
        { apply List.Forall_forall. intros y Hy. specialize (Hx y Hy).
          unfold in_windowb. apply andb_false_iff. right. apply Z.leb_gt. lia. }
        rewrite (filter_none _ _ Hall). cbn [app].
        repeat split; [constructor|].
        constructor; [exact Hhi|].
        apply List.Forall_forall. intros y Hy. specialize (Hx y Hy). lia.
    + exists (x :: pre), post. cbn [app]. rewrite <- Hl.
      repeat split; [constructor; assumption|exact Hpost].
Qed.

(** On a table that [smhi_to_df] returns the window is computed without
    error and is one contiguous run of the table's rows: the rows before
    the run are earlier than [now], the rows after it later than [now]
    plus [hours_ahead] hours. *)
Theorem df_window_after_normalise
    (isoparse : string -> option datetime) (STHLM_TZ : Z -> Z)
    payload df now hours_ahead :
  smhi_to_df isoparse STHLM_TZ payload = Ok df ->
  exists w pre post,
    df_window now hours_ahead df = Ok w
    /\ columns w = row_keys
    /\ records df = (pre ++ records w ++ post)%list
    /\ Forall (fun r => instant (time r) < instant now) pre
    /\ Forall (fun r => instant now + hours_ahead * 3600000000 < instant (time r)) post.
Proof.
  intros H.
  pose proof (smhi_to_df_time_sorted _ _ _ _ H) as (Hcol & _ & Hs).
  apply smhi_to_df_Ok in H as (_ & _ & rows & _ & _ & _ & _ & Hdf).
  destruct (window_contiguous now hours_ahead (records df) Hs)
    as (pre & post & Hl & Hpre & Hpost).
  unfold df_window, pd.col_time. rewrite Hcol. cbn [bind].
  eexists _, pre, post. split; [reflexivity|]. cbn [columns records].
  split; [rewrite Hdf; reflexivity|].
  split; [exact Hl|]. split; [exact Hpre|exact Hpost].
Qed.

Lemma df_window_after_normalise_witness :
  exists w pre post,
    df_window (at_minutes 30) 48 table_two = Ok w
    /\ columns w = row_keys
    /\ records table_two = (pre ++ records w ++ post)%list
    /\ Forall (fun r => instant (time r) < instant (at_minutes 30)) pre
    /\ Forall (fun r => instant (at_minutes 30) + 48 * 3600000000
                        < instant (time r)) post.
Proof.
  apply (df_window_after_normalise isoparse_seconds CET payload_two).
  vm_compute. reflexivity.
Defined.

(** A longer look-ahead never loses a row: the window for fewer hours is
    a sub-sequence of the window for more hours. *)
Theorem df_window_monotone now h1 h2 df w1 w2 :
  h1 <= h2 ->
  df_window now h1 df = Ok w1 ->
  df_window now h2 df = Ok w2 ->
  sublist (records w1) (records w2).
Proof.
  intros Hh H1 H2.
  apply df_window_records in H1 as (_ & _ & ->).
  apply df_window_records in H2 as (_ & _ & ->).
  apply filter_greatest_sublist; [apply filter_sublist|].
  apply List.Forall_forall. intros r Hr.
  apply filter_In in Hr as [_ Hr].
  unfold in_windowb, Timedelta_hours in *.
  apply andb_true_iff in Hr as [Ha Hb]. apply andb_true_iff.
  rewrite Z.leb_le in *. lia.
Qed.

Lemma df_window_monotone_witness :
  sublist [row_at 0 2] [row_at 0 2; row_at 2880 3].
Proof.
  apply (df_window_monotone (at_minutes 0) 12 48 table_bounds
           {| columns := row_keys; records := [row_at 0 2] |}
           {| columns := row_keys; records := [row_at 0 2; row_at 2880 3] |});
    [lia|vm_compute; reflexivity|vm_compute; reflexivity].
Defined.

(** ** Malformed payloads *)

(** A payload that is not an object makes [smhi_to_df] raise
    AttributeError; a timeSeries that is true or a non-zero number makes it
    raise TypeError; a timeSeries that is false, zero, the empty string or
    the empty object is taken for an empty list, as null is. *)
Theorem smhi_to_df_malformed_payload
    (isoparse : string -> option datetime) (STHLM_TZ : Z -> Z) :
  (forall payload,
     (forall kv, payload <> PDict kv) ->
     smhi_to_df isoparse STHLM_TZ payload = Raise AttributeError)
  /\ (forall kv ts,
        Py.lookup kv "timeSeries" = Some ts ->
        Py.truthy ts = true ->
        Py.iter ts = Raise TypeError ->
        smhi_to_df isoparse STHLM_TZ (PDict kv) = Raise TypeError)
  /\ (forall kv ts,
        Py.lookup kv "timeSeries" = Some ts ->
        Py.truthy ts = false ->
        smhi_to_df isoparse STHLM_TZ (PDict kv)
        = smhi_to_df isoparse STHLM_TZ (PDict [("timeSeries", PNone)])).
Proof.
  split; [|split].
  - intros payload Hp. destruct payload; try reflexivity.
    exfalso. exact (Hp _ eq_refl).
  - intros kv ts Hts Ht Hi. unfold smhi_to_df. cbn [Py.get bind].
    rewrite Hts. unfold Py.or_. rewrite Ht, Hi. reflexivity.
  - intros kv ts Hts Ht. unfold smhi_to_df. cbn [Py.get bind Py.lookup].
    rewrite Hts. cbn. unfold Py.or_. rewrite Ht. reflexivity.
Qed.

Lemma smhi_to_df_malformed_payload_witness :
  smhi_to_df isoparse_seconds CET (PList []) = Raise AttributeError
  /\ smhi_to_df isoparse_seconds CET (PDict [("timeSeries", PInt 5)]) = Raise TypeError
  /\ smhi_to_df isoparse_seconds CET (PDict [("timeSeries", PStr "")])
     = smhi_to_df isoparse_seconds CET (PDict [("timeSeries", PNone)]).
Proof.
  destruct (smhi_to_df_malformed_payload isoparse_seconds CET) as (H1 & H2 & H3).
  split; [|split].
  - apply H1. intros kv. discriminate.
  - apply (H2 _ (PInt 5)); reflexivity.
  - apply (H3 _ (PStr "")); reflexivity.
Defined.

(** ** Errors and outcomes of the fetcher *)

Lemma replace_newline_no_newline s :
  ~ In "010"%char (list_ascii_of_string (replace_newline s)).
Proof.
  induction s as [|c s IH]; cbn; [tauto|].
  intros [H|H]; [|exact (IH H)].
  destruct (Ascii.eqb_spec c "010"%char) as [->|Hc]; [discriminate|].
  exact (Hc H).
Qed.

Lemma body_sample_ok r : sample_ok (body_sample r).
Proof.
  split.
  - rewrite body_sample_length. lia.
  - apply replace_newline_no_newline.
Qed.

(** The errors [fetch_smhi] raises itself are well formed: the coordinate
    error names the rejected pair and comes before any request; the HTTP
    error carries a 4xx or 5xx status; the content-type error carries a
    declared type without application/json; and a body sample carried by
    any of them has at most 200 characters and no newline. *)
Theorem fetch_smhi_error_shape
    (json_loads : string -> option pyval) (server : Upstream) (lat lon : float)
    out sent :
  fetch_smhi json_loads server lat lon = (out, sent) ->
  match out with
  | Raise (InvalidCoordinates a b) => a = lat /\ b = lon /\ sent = []
  | Raise (HttpStatusError st s) => 400 <= st < 600 /\ sample_ok s
  | Raise (NotJsonError ct s) =>
      str_in "application/json" ct = false /\ sample_ok s
  | Raise (JsonDecodeError s) => sample_ok s
  | _ => True
  end.
Proof.
  unfold fetch_smhi.
  destruct (coordinates_valid lat lon); cbn [negb].
  2:{ intros [= <- <-]. auto. }
  unfold Session_get. fold (smhi_url lat lon). fold smhi_retry.
  destruct (urlopen_sends smhi_retry (total smhi_retry) "GET" (smhi_url lat lon)
              server [] eq_refl) as (r & k & _ & ->).
  intros [= <- <-]. cbn [bind].
  unfold raise_for_status.
  destruct ((400 <=? status_code r) && (status_code r <? 600)) eqn:Est.
  - apply andb_true_iff in Est as [E1 E2].
    apply Z.leb_le in E1. apply Z.ltb_lt in E2.
    split; [lia|apply body_sample_ok].
  - destruct (str_in "application/json" _) eqn:Ect; cbn [negb].
    + destruct (json_loads (text r)); [exact I|apply body_sample_ok].
    + split; [exact Ect|apply body_sample_ok].
Qed.

Lemma fetch_smhi_error_shape_witness :
  400 <= 503 < 600 /\ sample_ok "Service Unavailable".
Proof.
  apply (fetch_smhi_error_shape loads_empty_object down_upstream 59.5 18
           (Raise (HttpStatusError 503 "Service Unavailable"))
           (repeat (smhi_url 59.5 18) 4)).
  vm_compute. reflexivity.
Defined.

(** The status is looked at first: an answer with a 4xx or 5xx status
    that does not call for a retry (its status is not one of the five and
    it is not a 413 with a Retry-After header) gives the HTTP error after
    one request, whatever its content type and body. *)
Theorem fetch_smhi_http_error
    (json_loads : string -> option pyval) (server : Upstream) (lat lon : float) :
  let url := smhi_url lat lon in
  let r := server url 0%nat in
  coordinates_valid lat lon = true ->
  400 <= status_code r < 600 ->
  ~ retry_status (status_code r) ->
  retry_after r = None \/ status_code r <> 413 ->
  fetch_smhi json_loads server lat lon
  = (Raise (HttpStatusError (status_code r) (body_sample r)), [url]).
Proof.
  intros url r Hok Hst Hnr Hra. unfold fetch_smhi. rewrite Hok. cbn [negb].
  fold (smhi_url lat lon). fold url. unfold Session_get. fold smhi_retry.
  rewrite urlopen_no_retry.
  - cbn [length app bind]. fold r. unfold raise_for_status.
    replace (400 <=? status_code r) with true by (symmetry; apply Z.leb_le; lia).
    replace (status_code r <? 600) with true by (symmetry; apply Z.ltb_lt; lia).
    reflexivity.
  - apply not_true_is_false. intros E. apply calls_for_retry_iff in E.
    cbn [length] in E. fold r in E.
    destruct E as [E|(_ & E1 & E2)]; [exact (Hnr E)|].
    destruct Hra as [Hra|Hra]; [exact (E1 Hra)|].
    unfold retry_status in Hnr. cbn [In] in E2. lia.
Qed.

Lemma fetch_smhi_http_error_witness :
  fetch_smhi loads_empty_object (fun _ _ => not_found_404) 59.5 18
  = (Raise (HttpStatusError 404 "{}"), [smhi_url 59.5 18]).
Proof.
  apply (fetch_smhi_http_error loads_empty_object (fun _ _ => not_found_404) 59.5 18).
  - reflexivity.
  - cbn. lia.
  - unfold retry_status. cbn. lia.
  - left. reflexivity.
Defined.

(** An answer with a 2xx status whose content type contains
    application/json (a charset parameter after it does no harm) is
    decoded: the payload is returned when the decoder succeeds, the decode
    error with a body sample when it fails. One request is sent. *)
Theorem fetch_smhi_decodes
    (json_loads : string -> option pyval) (server : Upstream) (lat lon : float) ct :
  let url := smhi_url lat lon in
  let r := server url 0%nat in
  coordinates_valid lat lon = true ->
  200 <= status_code r < 300 ->
  content_type r = Some ct ->
  str_in "application/json" ct = true ->
  fetch_smhi json_loads server lat lon
  = (match json_loads (text r) with
     | Some v => Ok v
     | None => Raise (JsonDecodeError (body_sample r))
     end, [url]).
Proof.
  intros url r Hok Hst Hct Hjson. unfold fetch_smhi. rewrite Hok. cbn [negb].
  fold (smhi_url lat lon). fold url. unfold Session_get. fold smhi_retry.
  rewrite urlopen_no_retry.
  - cbn [length app bind]. fold r. unfold raise_for_status.
    replace (400 <=? status_code r) with false by (symmetry; apply Z.leb_gt; lia).
    cbn [andb]. rewrite Hct, Hjson. reflexivity.
  - apply not_true_is_false. intros E. apply calls_for_retry_iff in E.
    cbn [length] in E. fold r in E. unfold retry_status in E. cbn [In] in E.
    lia.
Qed.

Lemma fetch_smhi_decodes_witness :
  fetch_smhi loads_empty_object charset_upstream 59.5 18
  = (Ok (PDict []), [smhi_url 59.5 18])
  /\ fetch_smhi (fun _ => None) charset_upstream 59.5 18
     = (Raise (JsonDecodeError "{}"), [smhi_url 59.5 18]).
Proof.
  split.
  - apply (fetch_smhi_decodes loads_empty_object charset_upstream 59.5 18
             "application/json; charset=utf-8");
      [reflexivity|cbn; lia|reflexivity|reflexivity].
  - apply (fetch_smhi_decodes (fun _ => None) charset_upstream 59.5 18
             "application/json; charset=utf-8");
      [reflexivity|cbn; lia|reflexivity|reflexivity].
Defined.

(** * Properties of the number-guessing game *)

Section GameFacts.

Variable strip : string -> string.
Variable lower : string -> string.
Variable int : string -> option Z.

Local Abbreviation ask_int := (App.ask_int strip lower int).
Local Abbreviation guess_loop := (App.guess_loop strip lower int).
Local Abbreviation play_round := (App.play_round strip lower int).
Local Abbreviation main_loop := (App.main_loop strip lower int).
Local Abbreviation main := (App.main strip lower int).
Local Abbreviation is_quit := (App.is_quit lower).
Local Abbreviation rejected := (rejected_line strip lower int).
Local Abbreviation reads_as := (line_reads_as strip lower int).

Lemma ask_int_rejected prompt bad stdin :
  Forall rejected bad ->
  ask_int prompt (bad ++ stdin)
  = let '(o, rest, out) := ask_int prompt stdin in
    (o, rest, (complaints prompt bad ++ out)%list).
Proof.
  induction 1 as [|line bad [Hq Hi] _ IH]; cbn [app App.ask_int].
  - destruct (ask_int prompt stdin) as [[o rest] out]. reflexivity.
  - rewrite Hq, Hi, IH.
    destruct (ask_int prompt stdin) as [[o rest] out]. reflexivity.
Qed.

(** [ask_int] returns the first line that reads as an integer: the lines
    before it that are neither integers nor requests to leave are each
    answered with the complaint and a new prompt, and the lines after it
    stay on standard input. *)
Theorem ask_int_first_integer prompt bad line n rest :
  Forall rejected bad ->
  reads_as line n ->
  ask_int prompt (bad ++ line :: rest)
  = (App.Done n, rest, (complaints prompt bad ++ [App.Prompt prompt])%list).
Proof.
  intros Hbad [Hq Hi]. rewrite ask_int_rejected by exact Hbad.
  cbn [App.ask_int]. rewrite Hq, Hi. reflexivity.
Qed.

(** [ask_int] ends the program with exit status 0 at the first line that,
    stripped and lower-cased, is q, quit or exit (after saying goodbye),
    and at the end of input (after the end-of-file message); rejected
    lines before that are answered with the complaint. *)
Theorem ask_int_leaves prompt bad :
  Forall rejected bad ->
  (forall line rest,
     is_quit (strip line) = true ->
     ask_int prompt (bad ++ line :: rest)
     = (App.Stop (App.SystemExit 0), rest,
        (complaints prompt bad ++ [App.Prompt prompt; App.Print "Hejdå!"])%list))
  /\ ask_int prompt bad
     = (App.Stop (App.SystemExit 0), [],
        (complaints prompt bad
         ++ [App.Prompt prompt; App.Print App.eof_message])%list).
Proof.
  intros Hbad. split.
  - intros line rest Hq. rewrite ask_int_rejected by exact Hbad.
    cbn [App.ask_int]. rewrite Hq. reflexivity.
  - rewrite <- (app_nil_r bad) at 1. rewrite ask_int_rejected by exact Hbad.
    reflexivity.
Qed.

(** A call of [ask_int] that returns has read at least one line, and a
    call that does not return ends the program with status 0. *)
Lemma ask_int_consumes prompt stdin o rest out :
  ask_int prompt stdin = (o, rest, out) ->
  match o with
  | App.Done _ => (length rest < length stdin)%nat
  | App.Stop e => e = App.SystemExit 0 /\ (length rest <= length stdin)%nat
  end.
Proof.
  revert o rest out. induction stdin as [|line stdin IH]; intros o rest out H;
    cbn [App.ask_int] in H.
  - injection H as <- <- _. cbn. auto.
  - destruct (is_quit (strip line)).
    + injection H as <- <- _. cbn. auto.
    + destruct (int (strip line)) as [n|].
      * injection H as <- <- _. cbn. lia.
      * destruct (ask_int prompt stdin) as [[o' rest'] out'] eqn:E.
        injection H as <- <- _. specialize (IH _ _ _ eq_refl).
        destruct o'; cbn [length]; [lia|]. destruct IH. split; [assumption|lia].
Qed.

Lemma guess_loop_terminates fuel : forall secret tries stdin,
  (length stdin < fuel)%nat ->
  exists o rest out,
    guess_loop fuel secret tries stdin = Some (o, rest, out)
    /\ match o with
       | App.Done _ => (length rest < length stdin)%nat
       | App.Stop e => e = App.SystemExit 0 /\ (length rest <= length stdin)%nat
       end.
Proof.
  induction fuel as [|fuel IH]; intros secret tries stdin Hf; [lia|].
  cbn [App.guess_loop].
  destruct (ask_int App.guess_prompt stdin) as [[o rest] out] eqn:E.
  pose proof (ask_int_consumes _ _ _ _ _ E) as Hc.
  destruct o as [guess|e].
  - assert (Hrec : exists o' rest' out',
               guess_loop fuel secret (tries + 1) rest = Some (o', rest', out')
               /\ match o' with
                  | App.Done _ => (length rest' < length stdin)%nat
                  | App.Stop e => e = App.SystemExit 0
                                  /\ (length rest' <= length stdin)%nat
                  end).
    { destruct (IH secret (tries + 1) rest ltac:(lia)) as (o' & rest' & out' & -> & Ho').
      exists o', rest', out'. split; [reflexivity|].
      destruct o'; [lia|]. destruct Ho'. split; [assumption|lia]. }
    destruct Hrec as (o' & rest' & out' & Hrec & Ho').
    destruct (guess <? secret).
    + rewrite Hrec. eexists _, _, _. split; [reflexivity|exact Ho'].
    + destruct (secret <? guess).
      * rewrite Hrec. eexists _, _, _. split; [reflexivity|exact Ho'].
      * eexists _, _, _. split; [reflexivity|exact Hc].
  - eexists _, _, _. split; [reflexivity|exact Hc].
Qed.

(** [play_round] ends on every finite input: either the secret was
    guessed, having read at least one line, or the program ends with exit
    status 0. *)
Theorem play_round_terminates secret stdin :
  exists o rest out,
    play_round secret stdin = Some (o, rest, out)
    /\ match o with
       | App.Done _ => (length rest < length stdin)%nat
       | App.Stop e => e = App.SystemExit 0 /\ (length rest <= length stdin)%nat
       end.
Proof.
  unfold App.play_round.
  destruct (guess_loop_terminates (S (length stdin)) secret 0 stdin ltac:(lia))
    as (o & rest & out & -> & Ho).
  eexists _, _, _. split; [reflexivity|exact Ho].
Qed.

Lemma guess_loop_wrong_guesses secret lines : forall guesses fuel tries line rest,
  Forall2 reads_as lines guesses ->
  Forall (fun g => g <> secret) guesses ->
  reads_as line secret ->
  (length lines < fuel)%nat ->
  guess_loop fuel secret tries (lines ++ line :: rest)
  = Some (App.Done tt, rest,
          (hints secret guesses
           ++ [App.Prompt App.guess_prompt;
               App.Print (App.won_message (tries + Z.of_nat (length guesses) + 1))])%list).
Proof.
  induction lines as [|l lines IH]; intros guesses fuel tries line rest H2 Hne Hwin Hf.
  - inversion H2; subst. destruct fuel as [|fuel]; [cbn in Hf; lia|].
    cbn [app App.guess_loop App.ask_int]. destruct Hwin as [-> ->].
    rewrite !Z.ltb_irrefl. cbn [length hints flat_map app].
    rewrite Z.add_0_r. reflexivity.
  - inversion H2 as [|? g ? guesses' [Hq Hi] H2']; subst.
    inversion Hne as [|? ? Hg Hne']; subst.
    destruct fuel as [|fuel]; [cbn in Hf; lia|].
    cbn [app App.guess_loop App.ask_int]. rewrite Hq, Hi.
    rewrite (IH guesses' fuel (tries + 1) line rest H2' Hne' Hwin)
      by (cbn in Hf; lia).
    cbn [length hints flat_map app]. unfold hint.
    replace (tries + 1 + Z.of_nat (length guesses') + 1)
      with (tries + Z.of_nat (S (length guesses')) + 1) by lia.
    destruct (Z.ltb_spec g secret); [reflexivity|].
    destruct (Z.ltb_spec secret g); [reflexivity|lia].
Qed.

(** A round in which every line reads as an integer: each wrong guess,
    whatever its size, is answered "too low" exactly when it is below the
    secret and "too high" otherwise, and the number of tries announced at
    the end is the number of guesses made, the right one included. *)
Theorem play_round_counts_tries secret lines guesses line rest :
  Forall2 reads_as lines guesses ->
  Forall (fun g => g <> secret) guesses ->
  reads_as line secret ->
  play_round secret (lines ++ line :: rest)
  = Some (App.Done tt, rest,
          (App.Print App.BANNER
           :: hints secret guesses
           ++ [App.Prompt App.guess_prompt;
               App.Print (App.won_message (Z.of_nat (length guesses) + 1))])%list).
Proof.
  intros H2 Hne Hwin. unfold App.play_round.
  rewrite (guess_loop_wrong_guesses secret lines guesses _ 0 line rest H2 Hne Hwin)
    by (rewrite length_app; cbn; lia).
  reflexivity.
Qed.

End GameFacts.

Section GameMain.

Variable strip : string -> string.
Variable lower : string -> string.
Variable int : string -> option Z.

Local Abbreviation play_round := (App.play_round strip lower int).
Local Abbreviation main_loop := (App.main_loop strip lower int).
Local Abbreviation main := (App.main strip lower int).

Lemma main_loop_terminates fuel : forall secrets round stdin,
  (length stdin < fuel)%nat ->
  exists o rest out,
    main_loop fuel secrets round stdin = Some (o, rest, out)
    /\ (o = App.Done tt \/ o = App.Stop (App.SystemExit 0) \/ o = App.Stop App.EOFError).
Proof.
  induction fuel as [|fuel IH]; intros secrets round stdin Hf; [lia|].
  cbn [App.main_loop].
  destruct (play_round_terminates strip lower int (secrets round) stdin)
    as (o & rest & out & -> & Ho).
  destruct o as [[]|e].
  - destruct rest as [|line rest'].
    + eexists _, _, _. split; [reflexivity|auto].
    + destruct (negb _).
      * eexists _, _, _. split; [reflexivity|auto].
      * destruct (IH secrets (S round) rest') as (o' & rest'' & out' & -> & Ho').
        { cbn [length] in Ho. lia. }
        eexists _, _, _. split; [reflexivity|exact Ho'].
  - destruct Ho as [-> _]. eexists _, _, _. split; [reflexivity|auto].
Qed.

(** [main] ends on every finite input, in one of three ways: it returns
    after an answer that does not start with j, it exits with status 0
    from [ask_int], or it dies of the EOFError raised at the question
    whether to play again. *)
Theorem main_terminates secrets stdin :
  exists o rest out,
    main secrets stdin = Some (o, rest, out)
    /\ (o = App.Done tt \/ o = App.Stop (App.SystemExit 0) \/ o = App.Stop App.EOFError).
Proof. apply main_loop_terminates. lia. Qed.

(** After a round that was won, [main] asks whether to play again. When
    the input ends there, the EOFError is not caught (unlike the one in
    [ask_int]); when the answer, stripped and lower-cased, does not start
    with j, [main] says goodbye and returns, leaving the rest of the input
    unread. *)
Theorem main_after_win secrets lines guesses line :
  Forall2 (line_reads_as strip lower int) lines guesses ->
  Forall (fun g => g <> secrets 0%nat) guesses ->
  line_reads_as strip lower int line (secrets 0%nat) ->
  let round_output :=
    (App.Print App.BANNER
     :: hints (secrets 0%nat) guesses
     ++ [App.Prompt App.guess_prompt;
         App.Print (App.won_message (Z.of_nat (length guesses) + 1))])%list in
  main secrets (lines ++ [line])
  = Some (App.Stop App.EOFError, [],
          (round_output ++ [App.Prompt App.again_prompt])%list)
  /\ (forall answer rest,
        String.prefix "j" (lower (strip answer)) = false ->
        main secrets (lines ++ line :: answer :: rest)
        = Some (App.Done tt, rest,
                (round_output
                 ++ [App.Prompt App.again_prompt; App.Print "Klart! 👋"])%list)).
Proof.
  intros H2 Hne Hwin round_output. split.
  - unfold App.main. cbn [App.main_loop].
    rewrite (play_round_counts_tries strip lower int _ lines guesses line [] H2 Hne Hwin).
    reflexivity.
  - intros answer rest Hj. unfold App.main. cbn [App.main_loop].
    rewrite (play_round_counts_tries strip lower int _ lines guesses line
               (answer :: rest) H2 Hne Hwin).
    rewrite Hj. reflexivity.
Qed.

(** An answer that starts with j starts another round, played with the
    next secret on the rest of the input; what that round and the ones
    after it write follows the question. *)
Theorem main_plays_again secrets lines guesses line answer rest o rest' out :
  Forall2 (line_reads_as strip lower int) lines guesses ->
  Forall (fun g => g <> secrets 0%nat) guesses ->
  line_reads_as strip lower int line (secrets 0%nat) ->
  String.prefix "j" (lower (strip answer)) = true ->
  main (fun n => secrets (S n)) rest = Some (o, rest', out) ->
  main secrets (lines ++ line :: answer :: rest)
  = Some (o, rest',
          (App.Print App.BANNER
           :: hints (secrets 0%nat) guesses
           ++ [App.Prompt App.guess_prompt;
               App.Print (App.won_message (Z.of_nat (length guesses) + 1))]
           ++ App.Prompt App.again_prompt :: out)%list).
Proof.
  intros H2 Hne Hwin Hj Hrest.
  assert (Hshift : forall fuel round stdin,
             main_loop fuel secrets (S round) stdin
             = main_loop fuel (fun n => secrets (S n)) round stdin).
  { induction fuel as [|fuel IH]; intros round stdin; [reflexivity|].
    cbn [App.main_loop].
    destruct (play_round (secrets (S round)) stdin) as [[[[[]|e] r] ou]|];
      try reflexivity.
    destruct r as [|l r]; [reflexivity|].
    destruct (negb _); [reflexivity|]. rewrite IH. reflexivity. }
  assert (Hmono : forall fuel sec round stdin res,
             main_loop fuel sec round stdin = Some res ->
             forall fuel', (fuel <= fuel')%nat ->
             main_loop fuel' sec round stdin = Some res).
  { induction fuel as [|fuel IH]; intros sec round stdin res H fuel' Hle;
      [discriminate|].
    destruct fuel' as [|fuel']; [lia|]. cbn [App.main_loop] in H |- *.
    destruct (play_round (sec round) stdin) as [[[[[]|e] r] ou]|];
      try exact H.
    destruct r as [|l r]; [exact H|].
    destruct (negb _); [exact H|].
    destruct (main_loop fuel sec (S round) r) as [res'|] eqn:E; [|discriminate].
    rewrite (IH _ _ _ _ E fuel') by lia. exact H. }
  unfold App.main in *. cbn [App.main_loop].
  rewrite (play_round_counts_tries strip lower int _ lines guesses line
             (answer :: rest) H2 Hne Hwin).
  rewrite Hj. cbn [negb]. rewrite Hshift.
  rewrite (Hmono _ _ _ _ _ Hrest) by (rewrite length_app; cbn; lia).
  rewrite <- app_comm_cons, <- app_assoc. reflexivity.
Qed.

End GameMain.

Section GameRejected.

Variable strip : string -> string.
Variable lower : string -> string.
Variable int : string -> option Z.

Local Abbreviation ask_int := (App.ask_int strip lower int).
Local Abbreviation guess_loop := (App.guess_loop strip lower int).
Local Abbreviation play_round := (App.play_round strip lower int).

Lemma guess_loop_more_fuel fuel : forall secret tries stdin res fuel',
  guess_loop fuel secret tries stdin = Some res ->
  (fuel <= fuel')%nat ->
  guess_loop fuel' secret tries stdin = Some res.
Proof.
  induction fuel as [|fuel IH]; intros secret tries stdin res fuel' H Hle;
    [discriminate|].
  destruct fuel' as [|fuel']; [lia|]. cbn [App.guess_loop] in H |- *.
  destruct (ask_int App.guess_prompt stdin) as [[[guess|e] rest] out];
    [|exact H].
  destruct (guess <? secret).
  - destruct (guess_loop fuel secret (tries + 1) rest) as [res'|] eqn:E;
      [|discriminate].
    rewrite (IH _ _ _ _ fuel' E) by lia. exact H.
  - destruct (secret <? guess); [|exact H].
    destruct (guess_loop fuel secret (tries + 1) rest) as [res'|] eqn:E;
      [|discriminate].
    rewrite (IH _ _ _ _ fuel' E) by lia. exact H.
Qed.

(** Lines that are neither integers nor requests to leave do not count as
    tries: put in front of the input of a round, they add their complaints
    to what is written and change nothing else. *)
Theorem play_round_ignores_rejected secret bad stdin o rest out :
  Forall (rejected_line strip lower int) bad ->
  play_round secret stdin = Some (o, rest, (App.Print App.BANNER :: out)%list) ->
  play_round secret (bad ++ stdin)
  = Some (o, rest,
          (App.Print App.BANNER :: complaints App.guess_prompt bad ++ out)%list).
Proof.
  intros Hbad H. unfold App.play_round in *.
  destruct (guess_loop (S (length stdin)) secret 0 stdin) as [[[o0 rest0] out0]|] eqn:E;
    [|discriminate].
  injection H as -> -> ->.
  cbn [App.guess_loop] in E |- *.
  rewrite (ask_int_rejected strip lower int _ bad stdin Hbad).
  destruct (ask_int App.guess_prompt stdin) as [[[guess|e] r] ou].
  - assert (Hfuel : (length stdin <= length (bad ++ stdin))%nat)
      by (rewrite length_app; lia).
    destruct (guess <? secret).
    + destruct (guess_loop (length stdin) secret (0 + 1) r) as [[[o1 r1] ou1]|] eqn:E1;
        [|discriminate].
      rewrite (guess_loop_more_fuel _ _ _ _ _ _ E1 Hfuel).
      injection E as <- <- <-. rewrite <- app_assoc. reflexivity.
    + destruct (secret <? guess).
      * destruct (guess_loop (length stdin) secret (0 + 1) r) as [[[o1 r1] ou1]|] eqn:E1;
          [|discriminate].
        rewrite (guess_loop_more_fuel _ _ _ _ _ _ E1 Hfuel).
        injection E as <- <- <-. rewrite <- app_assoc. reflexivity.
      * injection E as <- <- <-. rewrite <- app_assoc. reflexivity.
  - injection E as <- <- <-. reflexivity.
Qed.

End GameRejected.

(** ** The game on examples *)

Lemma ask_int_first_integer_witness :
  App.ask_int App.ascii_strip App.ascii_lower App.int_of_decimal "? "
    (["abc"; ""; "4.5"] ++ " -12 " :: ["7"])
  = (App.Done (-12), ["7"],
     (complaints "? " ["abc"; ""; "4.5"] ++ [App.Prompt "? "])%list).
Proof.
  apply (ask_int_first_integer App.ascii_strip App.ascii_lower App.int_of_decimal).
  - repeat constructor.
  - split; reflexivity.
Defined.

Lemma ask_int_leaves_witness :
  App.ask_int App.ascii_strip App.ascii_lower App.int_of_decimal "? "
    (["abc"] ++ "  QuIt " :: ["7"])
  = (App.Stop (App.SystemExit 0), ["7"],
     (complaints "? " ["abc"] ++ [App.Prompt "? "; App.Print "Hejdå!"])%list)
  /\ App.ask_int App.ascii_strip App.ascii_lower App.int_of_decimal "? " ["abc"]
     = (App.Stop (App.SystemExit 0), [],
        (complaints "? " ["abc"] ++ [App.Prompt "? "; App.Print App.eof_message])%list).
Proof.
  destruct (ask_int_leaves App.ascii_strip App.ascii_lower App.int_of_decimal
              "? " ["abc"]) as [H1 H2].
  { repeat constructor. }
  split; [apply H1; reflexivity|exact H2].
Defined.

Lemma play_round_counts_tries_witness :
  App.play_round App.ascii_strip App.ascii_lower App.int_of_decimal 42
    (["50"; "-3"; "1000"] ++ "42" :: ["n"])
  = Some (App.Done tt, ["n"],
          (App.Print App.BANNER
           :: hints 42 [50; -3; 1000]
           ++ [App.Prompt App.guess_prompt;
               App.Print (App.won_message (Z.of_nat (length [50; -3; 1000]) + 1))])%list).
Proof.
  apply (play_round_counts_tries App.ascii_strip App.ascii_lower App.int_of_decimal).
  - repeat constructor.
  - repeat constructor; discriminate.
  - split; reflexivity.
Defined.

Lemma play_round_ignores_rejected_witness :
  App.play_round App.ascii_strip App.ascii_lower App.int_of_decimal 42
    (["forty"; "two"] ++ ["42"])
  = Some (App.Done tt, [],
          (App.Print App.BANNER
           :: complaints App.guess_prompt ["forty"; "two"]
           ++ [App.Prompt App.guess_prompt; App.Print (App.won_message 1)])%list).
Proof.
  apply (play_round_ignores_rejected App.ascii_strip App.ascii_lower App.int_of_decimal).
  - repeat constructor.
  - reflexivity.
Defined.

Lemma main_after_win_witness :
  App.main App.ascii_strip App.ascii_lower App.int_of_decimal (fun _ => 42)
    (["50"] ++ ["42"])
  = Some (App.Stop App.EOFError, [],
          ((App.Print App.BANNER
            :: hints 42 [50]
            ++ [App.Prompt App.guess_prompt;
                App.Print (App.won_message (Z.of_nat (length [50]) + 1))])
           ++ [App.Prompt App.again_prompt])%list)
  /\ App.main App.ascii_strip App.ascii_lower App.int_of_decimal (fun _ => 42)
       (["50"] ++ "42" :: "nej" :: ["7"])
     = Some (App.Done tt, ["7"],
             ((App.Print App.BANNER
               :: hints 42 [50]
               ++ [App.Prompt App.guess_prompt;
                   App.Print (App.won_message (Z.of_nat (length [50]) + 1))])
              ++ [App.Prompt App.again_prompt; App.Print "Klart! 👋"])%list).
Proof.
  destruct (main_after_win App.ascii_strip App.ascii_lower App.int_of_decimal
              (fun _ => 42) ["50"] [50] "42") as [H1 H2].
  - repeat constructor.
  - repeat constructor; discriminate.
  - split; reflexivity.
  - split; [exact H1|]. apply H2. reflexivity.
Defined.

Lemma main_plays_again_witness :
  App.main App.ascii_strip App.ascii_lower App.int_of_decimal
    (fun n => if (n <? 1)%nat then 42 else 7)
    (["50"] ++ "42" :: " Ja" :: ["7"; "n"])
  = Some (App.Done tt, [],
          (App.Print App.BANNER
           :: hints 42 [50]
           ++ [App.Prompt App.guess_prompt;
               App.Print (App.won_message (Z.of_nat (length [50]) + 1))]
           ++ App.Prompt App.again_prompt
              :: [App.Print App.BANNER; App.Prompt App.guess_prompt;
                  App.Print (App.won_message 1);
                  App.Prompt App.again_prompt; App.Print "Klart! 👋"])%list).
Proof.
  apply (main_plays_again App.ascii_strip App.ascii_lower App.int_of_decimal
           (fun n => if (n <? 1)%nat then 42 else 7) ["50"] [50] "42" " Ja" ["7"; "n"]).
  - repeat constructor.
  - repeat constructor; discriminate.
  - split; reflexivity.
  - reflexivity.
  - reflexivity.
Defined.

(** ** Range of the compass helper *)

Lemma dirs_lookup_lt i :
  (i < 16)%nat -> exists d, dirs !! i = Some d /\ In d dirs.
Proof.
  intros Hi. unfold dirs.
  do 16 (destruct i as [|i]; [eexists; split; [reflexivity|cbn; tauto]|]).
  lia.
Qed.

(** Whatever float it is given, [_deg_to_cardinal] returns the dash or one
    of the sixteen labels, or raises; it raises only on an angle that is
    not NaN, and then ValueError or OverflowError (from [int]), never a
    division or index error. *)
Theorem deg_to_cardinal_range (deg : float) :
  match _deg_to_cardinal deg with
  | Ok s => s = dash \/ In s dirs
  | Raise e =>
      PrimFloat.is_nan deg = false /\ (e = ValueError \/ e = OverflowError)
  end.
Proof.
  unfold _deg_to_cardinal.
  destruct (PrimFloat.is_nan deg); [left; reflexivity|].
  assert (Hq : exists q, PyFloat.floordiv (deg + 11.25)%float 22.5%float = Ok q).
  { unfold PyFloat.floordiv.
    change (22.5 =? 0)%float with false. cbv iota.
    destruct (PyFloat.nonzero _); eexists; reflexivity. }
  destruct Hq as [q ->]. cbn [bind].
  unfold PyFloat.to_int.
  destruct (Prim2SF q) as [s|s| |s m e]; cbn [bind]; try tauto.
  - change (dirs !! Z.to_nat (0 mod 16)) with (Some "N"). right. cbn. tauto.
  - set (n := if s then _ else _).
    destruct (dirs_lookup_lt (Z.to_nat (n mod 16))) as (d & -> & Hd).
    + pose proof (Z.mod_pos_bound n 16 ltac:(lia)). lia.
    + right. exact Hd.
Qed.

(** ** The preset locations *)

(** Every preset location passes the coordinate check: fetching for it
    sends a request and never raises the coordinate error. *)
Theorem presets_pass_validation
    (json_loads : string -> option pyval) (server : Upstream) name lat lon :
  In (name, lat, lon) DEFAULT_PRESETS ->
  coordinates_valid lat lon = true
  /\ exists out sent,
       fetch_smhi json_loads server lat lon = (out, sent)
       /\ sent <> []
       /\ forall a b, out <> Raise (InvalidCoordinates a b).
Proof.
  intros Hin.
  assert (Hok : coordinates_valid lat lon = true).
  { unfold DEFAULT_PRESETS in Hin. cbn [In] in Hin.
    repeat (destruct Hin as [[= <- <- <-]|Hin]; [vm_compute; reflexivity|]).
    contradiction. }
  split; [exact Hok|].
  unfold fetch_smhi. rewrite Hok. cbn [negb]. unfold Session_get.
  fold (smhi_url lat lon). fold smhi_retry.
  destruct (urlopen_sends smhi_retry (total smhi_retry) "GET" (smhi_url lat lon)
              server [] eq_refl) as (r & k & _ & ->).
  eexists _, _. split; [reflexivity|]. split; [discriminate|].
  intros a b. cbn [bind].
  destruct (raise_for_status r); [discriminate|].
  destruct (negb _); [discriminate|].
  destruct (json_loads _); discriminate.
Qed.

Lemma presets_pass_validation_witness :
  coordinates_valid 63.8258 20.2630 = true
  /\ exists out sent,
       fetch_smhi loads_empty_object flaky_upstream 63.8258 20.2630 = (out, sent)
       /\ sent <> []
       /\ forall a b, out <> Raise (InvalidCoordinates a b).
Proof.
  apply (presets_pass_validation loads_empty_object flaky_upstream "Umeå").
  right; right; right; left. reflexivity.
Defined.
